(** * Boiler simulation: the calculation pipeline of [lib/boilerModel.ts]

    The pipeline [furnace → heatTransfer → steamGeneration →
    generateFlueGases → boiler] is straight-line arithmetic over the
    TypeScript type [number].  The embedding below is written once, over an
    interface [Number] of the arithmetic the source uses, and is read at two
    instances:

    - [float]: IEEE-754 binary64 with round-to-nearest-even, the kernel's
      primitive floats.  This is what the program computes.
    - [R]: the same formulas in exact real arithmetic, with no rounding,
      no overflow and no infinities.  This is the idealisation the
      specification speaks of when it quantifies over real numbers.

    Objects used as string-keyed maps (flue-gas composition, emissions) are
    [gmap string num]. *)

From Stdlib Require Import ZArith QArith Qreals Reals Lra Floats.
From stdpp Require Import base option strings gmap.

Set Warnings "-inexact-float".

(** ** The type [number] and its arithmetic *)

(** [lit q] is the numeric literal written [q] in the source; [PI] is
    [Math.PI].  The interface carries no law: binary64 arithmetic is neither
    associative nor distributive. *)
Class Number (num : Type) := {
  lit : Q -> num;
  add : num -> num -> num;
  sub : num -> num -> num;
  mul : num -> num -> num;
  div : num -> num -> num;
  PI : num
}.

Arguments lit {num _} q%_Q.

Declare Scope num_scope.
Delimit Scope num_scope with num.
Infix "+" := add : num_scope.
Infix "-" := sub : num_scope.
Infix "*" := mul : num_scope.
Infix "/" := div : num_scope.

(** *** binary64 *)

Module Float64.

(** The double nearest to the decimal literal [q]: numerator and
    denominator of every literal of the source are integers below [2^53],
    hence exact doubles, and IEEE division rounds their quotient
    correctly. *)
Definition of_pos (p : positive) : float :=
  of_uint63 (Uint63.of_Z (Zpos p)).

Definition of_Q (q : Q) : float :=
  match Qnum q with
  | Z0 => 0%float
  | Zpos n => (of_pos n / of_pos (Qden q))%float
  | Zneg n => (- (of_pos n / of_pos (Qden q)))%float
  end.

(** [Math.PI] *)
Definition pi : float := 0x1.921fb54442d18p+1%float.

End Float64.

#[export] Instance float_Number : Number float := {|
  lit := Float64.of_Q;
  add := PrimFloat.add;
  sub := PrimFloat.sub;
  mul := PrimFloat.mul;
  div := PrimFloat.div;
  PI := Float64.pi
|}.

(** *** exact real arithmetic *)

#[export] Instance R_Number : Number R := {|
  lit := Q2R;
  add := Rplus;
  sub := Rminus;
  mul := Rmult;
  div := Rdiv;
  PI := Rtrigo1.PI
|}.

(** ** Data model: the interfaces of the source *)

Module Fuel.
Record t {num : Type} := mk {
  type : string;
  quantity : num;      (* lb/hr or ft³/hr *)
  heatContent : num    (* BTU/lb or BTU/ft³ *)
}.
Arguments t : clear implicits.
End Fuel.

Module Water.
Record t {num : Type} := mk {
  quantity : num;      (* lb/hr *)
  temperature : num    (* °C *)
}.
Arguments t : clear implicits.
End Water.

Module Air.
Record t {num : Type} := mk {
  quantity : num;      (* ft³/hr *)
  temperature : num    (* °C *)
}.
Arguments t : clear implicits.
End Air.

Module ControlSettings.
Record t {num : Type} := mk {
  pressure : num;      (* PSIG *)
  temperature : num    (* °F *)
}.
Arguments t : clear implicits.
End ControlSettings.

Module Steam.
Record t {num : Type} := mk {
  flowRate : num;      (* PPH *)
  pressure : num;      (* PSIG *)
  temperature : num    (* °F *)
}.
Arguments t : clear implicits.
End Steam.

Module FlueGases.
Record t {num : Type} := mk {
  volume : num;        (* ft³/hr *)
  temp : num;          (* °C *)
  composition : gmap string num
}.
Arguments t : clear implicits.
End FlueGases.

Module BoilerOutput.
Record t {num : Type} := mk {
  steam : Steam.t num;
  flueGases : FlueGases.t num;
  wasteHeat : num;     (* BTU/hr *)
  emissions : gmap string num
}.
Arguments t : clear implicits.
End BoilerOutput.

(** [{ min: number; max: number }] *)
Module Range.
Record t {num : Type} := mk { min : num; max : num }.
Arguments t : clear implicits.
End Range.

Module FurnaceDesign.
Record t := mk { corrugated : bool; type : string }.
End FurnaceDesign.

Module TubeConfig.
Record t {num : Type} := mk { numTubes : num; diameter : num; length : num }.
Arguments t : clear implicits.
End TubeConfig.

Module Refractory.
Record t {num : Type} := mk { thermalConductivity : num; maxTemp : num }.
Arguments t : clear implicits.
End Refractory.

Module BoilerParams.
Record t {num : Type} := mk {
  efficiency : num;
  horsepower : Range.t num;
  steamOutput : Range.t num;
  pressure : Range.t num;
  furnaceDesign : FurnaceDesign.t;
  tubeConfig : TubeConfig.t num;
  refractory : Refractory.t num;
  heatTransferCoeff : num
}.
Arguments t : clear implicits.
End BoilerParams.

(** The result of [furnace]: [{ energy, flueGases }]. *)
Module Combustion.
Record t {num : Type} := mk { energy : num; flueGases : FlueGases.t num }.
Arguments t : clear implicits.
End Combustion.

(** The flue gases [heatTransfer] returns: [{ volume, temp }], without the
    composition. *)
Module CooledFlueGases.
Record t {num : Type} := mk { volume : num; temp : num }.
Arguments t : clear implicits.
End CooledFlueGases.

(** The result of [heatTransfer]: [{ heatTransferred, flueGases }]. *)
Module HeatTransfer.
Record t {num : Type} := mk {
  heatTransferred : num;
  flueGases : CooledFlueGases.t num
}.
Arguments t : clear implicits.
End HeatTransfer.

(** The result of [generateFlueGases]: [{ flueGases, emissions }]. *)
Module Exhaust.
Record t {num : Type} := mk {
  flueGases : FlueGases.t num;
  emissions : gmap string num
}.
Arguments t : clear implicits.
End Exhaust.

(** ** The pipeline *)

Section Pipeline.
Context {num : Type} `{Number num}.
Local Open Scope num_scope.

Definition defaultParams : BoilerParams.t num := {|
  BoilerParams.efficiency := lit 0.9;
  BoilerParams.horsepower := {| Range.min := lit 50; Range.max := lit 2500 |};
  BoilerParams.steamOutput := {| Range.min := lit 1725; Range.max := lit 86250 |};
  BoilerParams.pressure := {| Range.min := lit 15; Range.max := lit 350 |};
  BoilerParams.furnaceDesign :=
    {| FurnaceDesign.corrugated := true; FurnaceDesign.type := "wet-back" |};
  BoilerParams.tubeConfig :=
    {| TubeConfig.numTubes := lit 100; TubeConfig.diameter := lit 2;
       TubeConfig.length := lit 10 |};
  BoilerParams.refractory :=
    {| Refractory.thermalConductivity := lit 0.5; Refractory.maxTemp := lit 1200 |};
  BoilerParams.heatTransferCoeff := lit 50
|}.

(** *** Helper functions *)

Definition calculateFlueGasVolume (fuel : Fuel.t num) (air : Air.t num) : num :=
  air.(Air.quantity) * lit 0.9.

Definition calculateFlueGasComposition (fuel : Fuel.t num) (air : Air.t num)
  : gmap string num :=
  {[ "CO2" := lit 10; "H2O" := lit 15; "O2" := lit 5; "N2" := lit 70 ]}.

Definition calculateTubeSurfaceArea (tubeConfig : TubeConfig.t num) : num :=
  PI * tubeConfig.(TubeConfig.diameter) * tubeConfig.(TubeConfig.length)
     * tubeConfig.(TubeConfig.numTubes).

Definition calculateSteamTemp (pressure : num) : num :=
  lit 212 + pressure * lit 1.7.

Definition getLatentHeat (pressure : num) : num :=
  lit 970 - pressure * lit 0.5.

Definition calculateSensibleHeat (inletTemp steamTemp : num) : num :=
  steamTemp - (inletTemp * lit 1.8 + lit 32).

Definition calculateEmissions (fuelType : string) : gmap string num :=
  {[ "CO" := lit 100; "NOx" := lit 50 ]}.

(** *** Furnace *)

Definition furnace (fuel : Fuel.t num) (air : Air.t num) : Combustion.t num :=
  let energy := fuel.(Fuel.quantity) * fuel.(Fuel.heatContent) in
  let flueGasTemp := lit 1100 in
  let flueGasVolume := calculateFlueGasVolume fuel air in
  let flueGasComposition := calculateFlueGasComposition fuel air in
  {| Combustion.energy := energy;
     Combustion.flueGases :=
       {| FlueGases.volume := flueGasVolume; FlueGases.temp := flueGasTemp;
          FlueGases.composition := flueGasComposition |} |}.

(** *** Heat transfer *)

Definition heatTransfer (combustionEnergy : num) (flueGases : FlueGases.t num)
    (water : Water.t num) (tubeConfig : TubeConfig.t num)
    (heatTransferCoeff : num) (furnaceDesign : FurnaceDesign.t)
  : HeatTransfer.t num :=
  let tubeSurfaceArea := calculateTubeSurfaceArea tubeConfig in
  let furnaceFactor :=
    if furnaceDesign.(FurnaceDesign.corrugated) then lit 1.1 else lit 1.0 in
  let wetBackFactor :=
    if String.eqb furnaceDesign.(FurnaceDesign.type) "wet-back"
    then lit 1.05 else lit 1.0 in
  let heatTransferred := combustionEnergy * lit 0.9 in
  let flueGasExitTemp := lit 180 in
  {| HeatTransfer.heatTransferred := heatTransferred;
     HeatTransfer.flueGases :=
       {| CooledFlueGases.volume := flueGases.(FlueGases.volume);
          CooledFlueGases.temp := flueGasExitTemp |} |}.

(** *** Steam generation *)

Definition steamGeneration (heatTransferred : num) (water : Water.t num)
    (controlSettings : ControlSettings.t num) (pressure : num) : Steam.t num :=
  let targetPressure := controlSettings.(ControlSettings.pressure) in
  let steamTemp := calculateSteamTemp targetPressure in
  let latentHeat := getLatentHeat targetPressure in
  let sensibleHeat := calculateSensibleHeat water.(Water.temperature) steamTemp in
  let totalHeatPerLb := sensibleHeat + latentHeat in
  let steamOutput := heatTransferred / totalHeatPerLb in
  {| Steam.flowRate := steamOutput;
     Steam.pressure := targetPressure;
     Steam.temperature := steamTemp |}.

(** *** Flue gases generation *)

Definition generateFlueGases (combustionEnergy : num) (fuel : Fuel.t num)
    (air : Air.t num) (flueGasesFromFurnace : FlueGases.t num) : Exhaust.t num :=
  let flueGasVolume := flueGasesFromFurnace.(FlueGases.volume) in
  let flueGasTemp := lit 180 in
  let composition := flueGasesFromFurnace.(FlueGases.composition) in
  let emissions := calculateEmissions fuel.(Fuel.type) in
  {| Exhaust.flueGases :=
       {| FlueGases.volume := flueGasVolume; FlueGases.temp := flueGasTemp;
          FlueGases.composition := composition |};
     Exhaust.emissions := emissions |}.

(** *** Main boiler function

    [params] is optional in the source ([params: BoilerParams =
    defaultParams]): [None] is the call that omits it. *)

Definition boiler (fuel : Fuel.t num) (water : Water.t num) (air : Air.t num)
    (electricity : num) (controlSettings : ControlSettings.t num)
    (params : option (BoilerParams.t num)) : BoilerOutput.t num :=
  let params := default defaultParams params in
  let burnt := furnace fuel air in
  let energy := burnt.(Combustion.energy) in
  let initialFlueGases := burnt.(Combustion.flueGases) in
  let transferred :=
    heatTransfer energy initialFlueGases water
      params.(BoilerParams.tubeConfig)
      params.(BoilerParams.heatTransferCoeff)
      params.(BoilerParams.furnaceDesign) in
  let heatTransferred := transferred.(HeatTransfer.heatTransferred) in
  let cooledFlueGases := transferred.(HeatTransfer.flueGases) in
  let steam :=
    steamGeneration heatTransferred water controlSettings
      params.(BoilerParams.pressure).(Range.min) in
  let exhaust := generateFlueGases energy fuel air initialFlueGases in
  let flueGases := exhaust.(Exhaust.flueGases) in
  let emissions := exhaust.(Exhaust.emissions) in
  let usableHeat := energy * params.(BoilerParams.efficiency) in
  let wasteHeat := energy * (lit 1 - params.(BoilerParams.efficiency)) in
  {| BoilerOutput.steam := steam;
     BoilerOutput.flueGases := flueGases;
     BoilerOutput.wasteHeat := wasteHeat;
     BoilerOutput.emissions := emissions |}.

(** The denominator of the steam flow rate, [totalHeatPerLb] in
    [steamGeneration]. *)
Definition totalHeatPerLb (water : Water.t num)
    (controlSettings : ControlSettings.t num) : num :=
  calculateSensibleHeat water.(Water.temperature)
    (calculateSteamTemp controlSettings.(ControlSettings.pressure))
  + getLatentHeat controlSettings.(ControlSettings.pressure).

End Pipeline.

(** ** Scenario A *)

Section ScenarioA.
Context {num : Type} `{Number num}.

Definition fuelA : Fuel.t num :=
  {| Fuel.type := "wood"; Fuel.quantity := lit 1000; Fuel.heatContent := lit 8000 |}.
Definition waterA : Water.t num :=
  {| Water.quantity := lit 34500; Water.temperature := lit 20 |}.
Definition airA : Air.t num :=
  {| Air.quantity := lit 12000; Air.temperature := lit 20 |}.
Definition electricityA : num := lit 50.
Definition controlA : ControlSettings.t num :=
  {| ControlSettings.pressure := lit 200; ControlSettings.temperature := lit 382 |}.

Definition scenarioA : BoilerOutput.t num :=
  boiler fuelA waterA airA electricityA controlA None.
End ScenarioA.

(** ** Vocabulary of the statements *)

(** Multiplication commutes.  It does at both instances; for binary64 the
    rounded product does not depend on the order of the factors. *)
Class MulComm (num : Type) `{Number num} : Prop :=
  mul_comm : forall x y : num, (x * y = y * x)%num.

Section Vocabulary.
Context {num : Type} `{Number num}.
Local Open Scope num_scope.

(** [{ ...fuel, quantity: k * fuel.quantity }] and the same for
    [heatContent]. *)
Definition scaleQuantity (k : num) (fuel : Fuel.t num) : Fuel.t num :=
  {| Fuel.type := fuel.(Fuel.type);
     Fuel.quantity := k * fuel.(Fuel.quantity);
     Fuel.heatContent := fuel.(Fuel.heatContent) |}.

Definition scaleHeatContent (k : num) (fuel : Fuel.t num) : Fuel.t num :=
  {| Fuel.type := fuel.(Fuel.type);
     Fuel.quantity := fuel.(Fuel.quantity);
     Fuel.heatContent := k * fuel.(Fuel.heatContent) |}.

(** [{ ...params, efficiency: e }] *)
Definition setEfficiency (e : num) (params : BoilerParams.t num) : BoilerParams.t num :=
  {| BoilerParams.efficiency := e;
     BoilerParams.horsepower := params.(BoilerParams.horsepower);
     BoilerParams.steamOutput := params.(BoilerParams.steamOutput);
     BoilerParams.pressure := params.(BoilerParams.pressure);
     BoilerParams.furnaceDesign := params.(BoilerParams.furnaceDesign);
     BoilerParams.tubeConfig := params.(BoilerParams.tubeConfig);
     BoilerParams.refractory := params.(BoilerParams.refractory);
     BoilerParams.heatTransferCoeff := params.(BoilerParams.heatTransferCoeff) |}.

(** [{ ...params, pressure: { ...params.pressure, min: m } }] *)
Definition setPressureMin (m : num) (params : BoilerParams.t num) : BoilerParams.t num :=
  {| BoilerParams.efficiency := params.(BoilerParams.efficiency);
     BoilerParams.horsepower := params.(BoilerParams.horsepower);
     BoilerParams.steamOutput := params.(BoilerParams.steamOutput);
     BoilerParams.pressure :=
       {| Range.min := m;
          Range.max := params.(BoilerParams.pressure).(Range.max) |};
     BoilerParams.furnaceDesign := params.(BoilerParams.furnaceDesign);
     BoilerParams.tubeConfig := params.(BoilerParams.tubeConfig);
     BoilerParams.refractory := params.(BoilerParams.refractory);
     BoilerParams.heatTransferCoeff := params.(BoilerParams.heatTransferCoeff) |}.

(** [P] holds of every numeric field of a [BoilerOutput]. *)
Definition everyField (P : num -> Prop) (out : BoilerOutput.t num) : Prop :=
  P out.(BoilerOutput.steam).(Steam.flowRate) /\
  P out.(BoilerOutput.steam).(Steam.pressure) /\
  P out.(BoilerOutput.steam).(Steam.temperature) /\
  P out.(BoilerOutput.flueGases).(FlueGases.volume) /\
  P out.(BoilerOutput.flueGases).(FlueGases.temp) /\
  map_Forall (fun _ => P) out.(BoilerOutput.flueGases).(FlueGases.composition) /\
  P out.(BoilerOutput.wasteHeat) /\
  map_Forall (fun _ => P) out.(BoilerOutput.emissions).

(** [P] holds of the fields the pipeline fills with constants: the flue-gas
    exit temperature, the composition percentages and the emissions. *)
Definition everyConstantField (P : num -> Prop) (out : BoilerOutput.t num) : Prop :=
  P out.(BoilerOutput.flueGases).(FlueGases.temp) /\
  map_Forall (fun _ => P) out.(BoilerOutput.flueGases).(FlueGases.composition) /\
  map_Forall (fun _ => P) out.(BoilerOutput.emissions).

End Vocabulary.

(** A double that is neither NaN nor infinite, and is not below zero. *)
Definition finiteNonNegative (x : float) : Prop :=
  is_finite x = true /\ (0 <=? x)%float = true.

(** A double that is not below zero: a zero, a positive number, positive
    infinity, or NaN (which compares below nothing). *)
Definition notNegative (x : float) : Prop := (x <? 0)%float = false.

(** The same on the specification-level floats. *)
Definition SFnotneg (x : spec_float) : bool :=
  match x with
  | S754_nan | S754_zero _ => true
  | S754_infinity s | S754_finite s _ _ => negb s
  end.

Section Doubling.
Context {num : Type} `{Number num}.
Local Open Scope num_scope.

(** Burning [fuel'] instead of [fuel], all else fixed, gives twice the
    energy, twice the heat transferred, twice the waste heat and twice the
    steam flow rate. *)
Definition outputDoubles (fuel fuel' : Fuel.t num) (water : Water.t num)
    (air : Air.t num) (electricity : num) (controlSettings : ControlSettings.t num)
    (params : option (BoilerParams.t num)) : Prop :=
  let p := default defaultParams params in
  let stage2 (f : Fuel.t num) :=
    heatTransfer (furnace f air).(Combustion.energy)
      (furnace f air).(Combustion.flueGases) water
      p.(BoilerParams.tubeConfig) p.(BoilerParams.heatTransferCoeff)
      p.(BoilerParams.furnaceDesign) in
  let out := boiler fuel water air electricity controlSettings params in
  let out' := boiler fuel' water air electricity controlSettings params in
  (furnace fuel' air).(Combustion.energy)
    = lit 2 * (furnace fuel air).(Combustion.energy) /\
  (stage2 fuel').(HeatTransfer.heatTransferred)
    = lit 2 * (stage2 fuel).(HeatTransfer.heatTransferred) /\
  out'.(BoilerOutput.wasteHeat) = lit 2 * out.(BoilerOutput.wasteHeat) /\
  out'.(BoilerOutput.steam).(Steam.flowRate)
    = lit 2 * out.(BoilerOutput.steam).(Steam.flowRate).

End Doubling.

(** A double of ordinary magnitude, [1e-100 <= |x| <= 1e100]: not zero,
    not subnormal, not infinite, not NaN. *)
Definition inRange (x : float) : Prop :=
  (1e-100 <=? abs x)%float = true /\ (abs x <=? 1e100)%float = true.

(** The double [2] at the specification level, [2^52 * 2^-51]. *)
Definition SFtwo : spec_float := S754_finite false 4503599627370496 (-51).

(** A run all of whose factors and results are of ordinary magnitude: the
    two fuel figures, [1 - params.efficiency], [totalHeatPerLb], and the
    energy, the heat transferred, the waste heat and the steam flow rate
    computed from them. *)
Definition ordinaryMagnitudes (fuel : Fuel.t float) (water : Water.t float)
    (air : Air.t float) (electricity : float)
    (controlSettings : ControlSettings.t float)
    (params : option (BoilerParams.t float)) : Prop :=
  let p := default defaultParams params in
  let burnt := furnace fuel air in
  let transferred :=
    heatTransfer burnt.(Combustion.energy) burnt.(Combustion.flueGases) water
      p.(BoilerParams.tubeConfig) p.(BoilerParams.heatTransferCoeff)
      p.(BoilerParams.furnaceDesign) in
  let out := boiler fuel water air electricity controlSettings params in
  inRange fuel.(Fuel.quantity) /\
  inRange fuel.(Fuel.heatContent) /\
  inRange (lit 1 - p.(BoilerParams.efficiency))%num /\
  inRange (totalHeatPerLb water controlSettings) /\
  inRange burnt.(Combustion.energy) /\
  inRange transferred.(HeatTransfer.heatTransferred) /\
  inRange out.(BoilerOutput.wasteHeat) /\
  inRange out.(BoilerOutput.steam).(Steam.flowRate).

(** ** Inputs at the edges of binary64 *)

(** A fuel whose energy, [1e308], is a finite double, while twice that
    energy is beyond the largest one ([1.797e308]). *)
Definition denseFuel : Fuel.t float :=
  {| Fuel.type := "coal"; Fuel.quantity := 1e200%float;
     Fuel.heatContent := 1e108%float |}.

(** Feed water hotter than the steam formulas allow for: with the Scenario A
    pressure of 200, [totalHeatPerLb = 552 - 1832 + 870 = -410]. *)
Definition hotWater : Water.t float :=
  {| Water.quantity := 34500%float; Water.temperature := 1000%float |}.

(** An operating point at which [totalHeatPerLb] is exactly zero:
    water at 650 gives [650 * 1.8 + 32 = 1202], and a pressure of [50/3]
    gives a steam temperature and a latent heat that add up to 1202. *)
Definition balancedWater : Water.t float :=
  {| Water.quantity := 34500%float; Water.temperature := 650%float |}.
Definition balancedControl : ControlSettings.t float :=
  {| ControlSettings.pressure := 16.666666666666668%float;
     ControlSettings.temperature := 382%float |}.

(** ** The dashboard around the model

    [lib/responsiveUtils.ts], [components/Grid.tsx], the page [app/page.tsx]
    with the form that feeds it, and the arithmetic of
    [components/BoilerVisualization.tsx]. *)

(** The line feed of [join('\n')] and of the template literals. *)
Definition newline : string := String (Ascii.ascii_of_nat 10) EmptyString.

Module ResponsiveUtils.

(** [ResponsiveValue<T> = T | Partial<Record<Breakpoint, T>>]: a plain value,
    or an object whose entries [Object.entries] lists in insertion order
    (no breakpoint name is an integer index). *)
Inductive ResponsiveValue (K T : Type) : Type :=
| Plain (value : T)
| PerBreakpoint (entries : list (K * T)).
Arguments Plain {K T} value.
Arguments PerBreakpoint {K T} entries.

Section CreateResponsiveStyles.
Context {K T : Type}.

(** The table [breakpoints] of [lib/breakpoints.ts], from breakpoint name to
    width, and JavaScript's [String(val)] on [T]. *)
Variable breakpoints : K -> string.
Variable JSString : T -> string.

Definition createResponsiveStyles (property : string)
    (value : ResponsiveValue K T) (transform : option (T -> string)) : string :=
  match value with
  | PerBreakpoint entries =>
      String.concat newline
        (map (fun '(breakpoint, val) =>
                let bp := breakpoints breakpoint in
                let cssValue :=
                  match transform with
                  | Some transform => transform val
                  | None => JSString val
                  end in
                "@media (min-width: " +:+ bp +:+ ") { " +:+ property +:+ ": "
                  +:+ cssValue +:+ "; }")
             entries)
  | Plain value =>
      let cssValue :=
        match transform with
        | Some transform => transform value
        | None => JSString value
        end in
      property +:+ ": " +:+ cssValue +:+ ";"
  end.

End CreateResponsiveStyles.

(** The responsive value with [f] applied to every value it holds. *)
Definition mapValue {K T U : Type} (f : T -> U) (value : ResponsiveValue K T)
  : ResponsiveValue K U :=
  match value with
  | Plain value => Plain (f value)
  | PerBreakpoint entries =>
      PerBreakpoint (map (fun '(breakpoint, val) => (breakpoint, f val)) entries)
  end.

End ResponsiveUtils.

(** [lib/breakpoints.ts] as the shell generator writes it. *)
Module Breakpoints.
Inductive Breakpoint : Type := sm | md | lg | xl.

Definition breakpoints (breakpoint : Breakpoint) : string :=
  match breakpoint with
  | sm => "640px"
  | md => "768px"
  | lg => "1024px"
  | xl => "1280px"
  end.
End Breakpoints.

Module Grid.
Import ResponsiveUtils.

Section Grid.
Context {K num : Type}.
Variable breakpoints : K -> string.

(** JavaScript's conversion of a number to a string, as a template literal
    applies it. *)
Variable numberToString : num -> string.

(** The [transform] the grid passes for its columns:
    [(val) => typeof val === 'number' ? `repeat(${val}, 1fr)` : val]. *)
Definition columnsTransform (val : num + string) : string :=
  match val with
  | inl val => "repeat(" +:+ numberToString val +:+ ", 1fr)"
  | inr val => val
  end.

(** [String(val)] on [number | string]. *)
Definition JSString (val : num + string) : string :=
  match val with
  | inl val => numberToString val
  | inr val => val
  end.

(** The [gridStyles] of the component; an omitted prop takes its default. *)
Definition gridStyles (columns : option (ResponsiveValue K (num + string)))
    (gap : option (ResponsiveValue K string)) : string :=
  let columns :=
    default (Plain (inr "repeat(auto-fit, minmax(280px, 1fr))")) columns in
  let gap := default (Plain "1.5rem") gap in
  newline +:+ "    display: grid;" +:+ newline +:+ "    "
    +:+ createResponsiveStyles breakpoints JSString
          "grid-template-columns" columns (Some columnsTransform)
    +:+ newline +:+ "    "
    +:+ createResponsiveStyles breakpoints (fun val : string => val) "gap" gap None
    +:+ newline +:+ "    width: 100%;"
    +:+ newline +:+ "    max-width: 1200px;"
    +:+ newline +:+ "    margin: 0 auto;"
    +:+ newline +:+ "  ".

End Grid.
End Grid.

(** The numbers [BoilerVisualization] derives from an output. *)
Module BoilerVisualization.
Section BoilerVisualization.
Context {num : Type} `{Number num}.
Local Open Scope num_scope.

(** The bars of the "Energy Distribution" chart. *)
Definition energyData (output : BoilerOutput.t num) : list (string * num) :=
  [ ("Usable Heat", output.(BoilerOutput.steam).(Steam.flowRate) * lit 1000);
    ("Waste Heat", output.(BoilerOutput.wasteHeat)) ].

(** The number the "Efficiency" card formats with [toFixed(1)]. *)
Definition efficiencyPercent (output : BoilerOutput.t num) : num :=
  (output.(BoilerOutput.steam).(Steam.flowRate) * lit 1000)
  / (output.(BoilerOutput.steam).(Steam.flowRate) * lit 1000
     + output.(BoilerOutput.wasteHeat))
  * lit 100.

End BoilerVisualization.
End BoilerVisualization.

(** The state of the page [Home] and what its handlers do to it. *)
Module Home.

(** What the form hands to [onSubmit]. *)
Record Inputs {num : Type} := mkInputs {
  fuel : Fuel.t num;
  water : Water.t num;
  air : Air.t num;
  electricity : num;
  controlSettings : ControlSettings.t num
}.
Arguments Inputs : clear implicits.

(** The three [useState] cells. *)
Record State {num : Type} := mkState {
  output : option (BoilerOutput.t num);
  isMobileMenuOpen : bool;
  activities : list string
}.
Arguments State : clear implicits.

Inductive Event {num : Type} : Type :=
| Submit (inputs : Inputs num)   (* the form is submitted *)
| OpenMenu                       (* the menu button is clicked *)
| CloseMenu.                     (* [MobileNav] calls [onClose] *)
Arguments Event : clear implicits.

Section Home.
Context {num : Type} `{Number num}.
Variable numberToString : num -> string.

Definition initial : State num :=
  {| output := None; isMobileMenuOpen := false; activities := [] |}.

(** [setOutput(boiler(inputs.fuel, inputs.water, inputs.air,
    inputs.electricity, inputs.controlSettings))] *)
Definition handleSubmit (inputs : Inputs num) (state : State num) : State num :=
  let result :=
    boiler inputs.(fuel) inputs.(water) inputs.(air) inputs.(electricity)
      inputs.(controlSettings) None in
  {| output := Some result;
     isMobileMenuOpen := state.(isMobileMenuOpen);
     activities := state.(activities) |}.

(** [setActivities((prev) => [activity, ...prev].slice(0, 4))] *)
Definition addActivity (activity : string) (state : State num) : State num :=
  {| output := state.(output);
     isMobileMenuOpen := state.(isMobileMenuOpen);
     activities := take 4 (activity :: state.(activities)) |}.

(** The line the form logs:
    [`Ran simulation: ${fuelType}, ${fuelQuantity} lb/hr, ${pressure} PSIG`]. *)
Definition activityMessage (inputs : Inputs num) : string :=
  "Ran simulation: " +:+ inputs.(fuel).(Fuel.type) +:+ ", "
    +:+ numberToString inputs.(fuel).(Fuel.quantity) +:+ " lb/hr, "
    +:+ numberToString inputs.(controlSettings).(ControlSettings.pressure)
    +:+ " PSIG".

(** The form's [handleSubmit]: [onSubmit(inputs)], then [addActivity]. *)
Definition formSubmit (inputs : Inputs num) (state : State num) : State num :=
  addActivity (activityMessage inputs) (handleSubmit inputs state).

Definition setIsMobileMenuOpen (open : bool) (state : State num) : State num :=
  {| output := state.(output);
     isMobileMenuOpen := open;
     activities := state.(activities) |}.

Definition step (state : State num) (event : Event num) : State num :=
  match event with
  | Submit inputs => formSubmit inputs state
  | OpenMenu => setIsMobileMenuOpen true state
  | CloseMenu => setIsMobileMenuOpen false state
  end.

(** The state after a sequence of events, oldest first. *)
Definition run (events : list (Event num)) : State num :=
  foldl step initial events.

(** [{output && <BoilerVisualization output={output} />}] and
    [if (!isOpen) return null] in [MobileNav]. *)
Definition showsVisualization (state : State num) : bool :=
  bool_decide (is_Some state.(output)).
Definition showsMobileNav (state : State num) : bool :=
  state.(isMobileMenuOpen).

(** What a sequence of events holds: the submitted inputs, and the menu
    clicks as the value they set. *)
Definition submitted (events : list (Event num)) : list (Inputs num) :=
  omap (fun event => match event with Submit inputs => Some inputs | _ => None end)
       events.

Definition menuClicks (events : list (Event num)) : list bool :=
  omap (fun event =>
          match event with
          | OpenMenu => Some true
          | CloseMenu => Some false
          | Submit _ => None
          end)
       events.

End Home.
End Home.

(** A fuel without energy on doubles: one factor of the energy is a zero and
    the other is finite. *)
Definition noEnergy (fuel : Fuel.t float) : Prop :=
  (is_zero fuel.(Fuel.quantity) = true /\ is_finite fuel.(Fuel.heatContent) = true)
  \/ (is_finite fuel.(Fuel.quantity) = true /\ is_zero fuel.(Fuel.heatContent) = true).

(** * Properties *)

(** ** The two arithmetics *)

Module Float64Facts.
Import Float64.
Local Open Scope float_scope.

(** The literals of the source denote the doubles JavaScript reads them as. *)
Lemma lit_values :
  lit (num := float) 0.9 = 0.9 /\ lit (num := float) 1.7 = 1.7 /\
  lit (num := float) 0.5 = 0.5 /\ lit (num := float) 1.8 = 1.8 /\
  lit (num := float) 1.1 = 1.1 /\ lit (num := float) 1.05 = 1.05 /\
  lit (num := float) 1.0 = 1 /\ lit (num := float) 1 = 1 /\
  lit (num := float) 212 = 212 /\ lit (num := float) 970 = 970 /\
  lit (num := float) 32 = 32 /\ lit (num := float) 180 = 180 /\
  lit (num := float) 1100 = 1100.
Proof. repeat split; reflexivity. Qed.

Lemma SF64mul_comm (x y : spec_float) : SF64mul x y = SF64mul y x.
Proof.
  unfold SF64mul, SFmul.
  destruct x as [sx|sx| |sx mx ex], y as [sy|sy| |sy my ey];
    try reflexivity;
    try (now rewrite (Bool.xorb_comm sx sy)).
  now rewrite (Bool.xorb_comm sx sy), (Pos.mul_comm mx my), (Z.add_comm ex ey).
Qed.

Lemma mul64_comm (x y : float) : x * y = y * x.
Proof. apply Prim2SF_inj. rewrite !mul_spec. apply SF64mul_comm. Qed.

(** A zero of either sign, as the specification-level float. *)
Lemma is_zero_inv (y : float) :
  is_zero y = true -> exists s, Prim2SF y = S754_zero s.
Proof.
  unfold is_zero. rewrite FloatAxioms.eqb_spec.
  destruct (Prim2SF y) as [s|s| |s m e]; intros Hy.
  - now exists s.
  - destruct s; discriminate Hy.
  - discriminate Hy.
  - destruct s; discriminate Hy.
Qed.

(** IEEE division by a zero never yields a finite number: the quotient is
    NaN when the dividend is a zero or NaN, an infinity otherwise. *)
Lemma div_by_zero_not_finite (x y : float) :
  is_zero y = true -> is_finite (x / y) = false.
Proof.
  intros Hy. destruct (is_zero_inv y Hy) as [s Hs].
  assert (Hq : Prim2SF (x / y) = S754_nan
               \/ exists b, Prim2SF (x / y) = S754_infinity b).
  { rewrite div_spec, Hs. unfold SF64div, SFdiv.
    destruct (Prim2SF x) as [sx|sx| |sx mx ex]; eauto. }
  unfold is_finite, is_nan, is_infinity.
  rewrite !FloatAxioms.eqb_spec, abs_spec.
  destruct Hq as [-> | [b ->]]; [reflexivity | now destruct b].
Qed.


(** *** Signs

    The sign of a rounded result is the sign the operation computes before
    rounding, so the arithmetic of the pipeline keeps numbers that are not
    negative that way.  Overflow is not excluded: the results may be
    infinite, or NaN from [Infinity * 0]. *)

Lemma notNegative_spec (x : float) :
  notNegative x <-> SFnotneg (Prim2SF x) = true.
Proof.
  unfold notNegative. rewrite ltb_spec.
  change (Prim2SF 0) with (S754_zero false).
  destruct (Prim2SF x) as [s|s| |s m e]; try destruct s; cbn; intuition congruence.
Qed.

Lemma leb0_notneg (x : float) :
  (0 <=? x) = true -> SFnotneg (Prim2SF x) = true.
Proof.
  rewrite leb_spec. change (Prim2SF 0) with (S754_zero false).
  destruct (Prim2SF x) as [s|s| |s m e]; try destruct s; cbn; congruence.
Qed.

Lemma ltb0_pos (x : float) :
  (0 <? x) = true ->
  Prim2SF x = S754_infinity false \/ exists m e, Prim2SF x = S754_finite false m e.
Proof.
  rewrite ltb_spec. change (Prim2SF 0) with (S754_zero false).
  destruct (Prim2SF x) as [s|s| |s m e]; try destruct s; cbn; try congruence; eauto.
Qed.

Lemma round_aux_notneg prec emax m e l :
  SFnotneg (binary_round_aux prec emax false m e l) = true.
Proof.
  unfold binary_round_aux.
  destruct (shr_fexp prec emax m e l) as [mrs' e'].
  destruct (shr_fexp prec emax _ e' loc_Exact) as [mrs'' e''].
  destruct (shr_m mrs''); [reflexivity | | reflexivity].
  now destruct (Z.leb e'' (Z.sub emax prec)).
Qed.

Lemma round_notneg prec emax m e :
  SFnotneg (binary_round prec emax false m e) = true.
Proof.
  unfold binary_round. destruct (shl_align m e _) as [mz ez].
  apply round_aux_notneg.
Qed.

Lemma normalize_notneg prec emax m e :
  (0 <= m)%Z -> SFnotneg (binary_normalize prec emax m e false) = true.
Proof.
  intros Hm. destruct m as [|p|p]; [reflexivity | apply round_notneg | lia].
Qed.

Lemma SF64mul_notneg x y :
  SFnotneg x = true -> SFnotneg y = true -> SFnotneg (SF64mul x y) = true.
Proof.
  unfold SF64mul, SFmul.
  destruct x as [sx|sx| |sx mx ex], y as [sy|sy| |sy my ey]; cbn;
    intros Hx Hy; try reflexivity;
    try (apply Bool.negb_true_iff in Hx; subst sx);
    try (apply Bool.negb_true_iff in Hy; subst sy);
    try reflexivity.
  apply round_aux_notneg.
Qed.

Lemma SF64add_notneg x y :
  SFnotneg x = true -> SFnotneg y = true -> SFnotneg (SF64add x y) = true.
Proof.
  unfold SF64add, SFadd.
  destruct x as [sx|sx| |sx mx ex], y as [sy|sy| |sy my ey]; cbn [SFnotneg];
    intros Hx Hy; try reflexivity;
    try (apply Bool.negb_true_iff in Hx; subst sx);
    try (apply Bool.negb_true_iff in Hy; subst sy);
    try reflexivity.
  - now destruct sx, sy.
  - apply normalize_notneg. cbn [cond_Zopp]. lia.
Qed.

Lemma SF64div_notneg x y :
  SFnotneg x = true ->
  y = S754_infinity false \/ (exists m e, y = S754_finite false m e) ->
  SFnotneg (SF64div x y) = true.
Proof.
  unfold SF64div, SFdiv.
  intros Hx [-> | (my & ey & ->)];
    destruct x as [sx|sx| |sx mx ex]; cbn [SFnotneg] in *;
    try reflexivity;
    try (apply Bool.negb_true_iff in Hx; subst sx);
    try reflexivity.
  destruct (SFdiv_core_binary _ _ _ _ _ _) as [[mz ez] lz].
  apply round_aux_notneg.
Qed.

Lemma digits2_pos_bound (m : positive) :
  (Zpos m < 2 ^ Zpos (digits2_pos m))%Z.
Proof.
  induction m as [p IH | p IH |]; cbn [digits2_pos].
  - rewrite Pos2Z.inj_succ, Z.pow_succ_r by lia. lia.
  - rewrite Pos2Z.inj_succ, Z.pow_succ_r by lia. lia.
  - reflexivity.
Qed.

Lemma valid_mantissa_bound s m e :
  valid_binary (S754_finite s m e) = true -> (Zpos m < 2 ^ 53)%Z.
Proof.
  unfold valid_binary, SpecFloat.valid_binary, bounded, canonical_mantissa, fexp.
  intros Hv. apply andb_prop in Hv as [Hc _]. apply Z.eqb_eq in Hc.
  pose proof (digits2_pos_bound m) as Hm.
  assert (Hd : (Zpos (digits2_pos m) <= 53)%Z) by (unfold prec in Hc; lia).
  eapply Z.lt_le_trans; [exact Hm |].
  apply Z.pow_le_mono_r; lia.
Qed.

Lemma iter_xO_double (m d : positive) :
  (2 * Zpos m <= Zpos (Pos.iter xO m d))%Z.
Proof.
  induction d as [|d IH] using Pos.peano_ind.
  - cbn. lia.
  - rewrite Pos.iter_succ. rewrite Pos2Z.inj_xO. lia.
Qed.

Lemma one_minus_notneg (e : float) :
  (e <=? 1) = true -> SFnotneg (Prim2SF (1 - e)) = true.
Proof.
  rewrite leb_spec, sub_spec.
  pose proof (Prim2SF_valid e) as Hv.
  change (Prim2SF 1) with (S754_finite false 4503599627370496 (-52)).
  destruct (Prim2SF e) as [s|s| |s m ex]; intros Hle.
  - reflexivity.
  - destruct s; [reflexivity | discriminate Hle].
  - discriminate Hle.
  - unfold SF64sub, SFsub. apply normalize_notneg.
    destruct s; cbn [cond_Zopp]; [lia |].
    apply valid_mantissa_bound in Hv.
    unfold SFleb, SFcompare in Hle.
    destruct (Z.compare_spec ex (-52)) as [-> | Hlt | Hgt]; [| | discriminate Hle].
    + assert (Hm : (m <= 4503599627370496)%positive).
      { unfold Pos.le, Pos.compare.
        destruct (Pos.compare_cont Eq m 4503599627370496); congruence. }
      rewrite Z.min_id. unfold shl_align. rewrite Z.sub_diag. cbn [fst].
      apply Z.le_0_sub, Pos2Z.pos_le_pos, Hm.
    + rewrite Z.min_r by lia. unfold shl_align.
      rewrite Z.sub_diag.
      destruct (ex - -52)%Z as [|d|d] eqn:Hd; try lia.
      cbn [fst].
      pose proof (iter_xO_double 4503599627370496 d). lia.
Qed.

Lemma mul64_notNegative (x y : float) :
  SFnotneg (Prim2SF x) = true -> SFnotneg (Prim2SF y) = true ->
  SFnotneg (Prim2SF (x * y)) = true.
Proof. rewrite mul_spec. apply SF64mul_notneg. Qed.

Lemma add64_notNegative (x y : float) :
  SFnotneg (Prim2SF x) = true -> SFnotneg (Prim2SF y) = true ->
  SFnotneg (Prim2SF (x + y)) = true.
Proof. rewrite add_spec. apply SF64add_notneg. Qed.

Lemma div64_notNegative (x y : float) :
  SFnotneg (Prim2SF x) = true -> (0 <? y) = true ->
  SFnotneg (Prim2SF (x / y)) = true.
Proof.
  intros Hx Hy. rewrite div_spec. apply SF64div_notneg; [exact Hx |].
  now apply ltb0_pos.
Qed.

End Float64Facts.

#[export] Instance float_MulComm : MulComm float.
Proof. exact Float64Facts.mul64_comm. Qed.

#[export] Instance R_MulComm : MulComm R.
Proof. exact Rmult_comm. Qed.

(** ** Scenario A *)

(** What the program returns for Scenario A, field by field. *)
Lemma scenarioA_float :
  scenarioA (num := float) =
  {| BoilerOutput.steam :=
       {| Steam.flowRate := (7200000 / 1354)%float;
          Steam.pressure := 200%float;
          Steam.temperature := 552%float |};
     BoilerOutput.flueGases :=
       {| FlueGases.volume := 10800%float;
          FlueGases.temp := 180%float;
          FlueGases.composition :=
            {[ "CO2" := 10%float; "H2O" := 15%float;
               "O2" := 5%float; "N2" := 70%float ]} |};
     BoilerOutput.wasteHeat := (8000000 * (1 - 0.9))%float;
     BoilerOutput.emissions := {[ "CO" := 100%float; "NOx" := 50%float ]} |}.
Proof. vm_compute. reflexivity. Qed.

(** C1, counterexample.  On the Scenario A inputs the program does not
    return [wasteHeat = 800000]: in binary64 [1 - 0.9] is
    [0.09999999999999998], and [8000000 * 0.09999999999999998] rounds to
    [799999.9999999998].  Nor is the steam flow rate, [7200000 / 1354],
    about [5316.10]: it exceeds [5317.57] ([1354 * 5316.10] is only
    [7197999.4]). *)
Lemma C1_scenarioA_counterexample :
  (scenarioA (num := float)).(BoilerOutput.wasteHeat) <> 800000%float /\
  (5317.57 <? (scenarioA (num := float)).(BoilerOutput.steam).(Steam.flowRate))%float
    = true.
Proof.
  split; [| vm_compute; reflexivity].
  intros Hw. vm_compute in Hw. discriminate Hw.
Qed.

(** C1, amended.  For the Scenario A inputs and the default params the
    program returns [steam.flowRate = 7200000 / 1354], which is
    [5317.577548005908] (not [5316.10]); [steam.pressure = 200];
    [steam.temperature = 552]; [wasteHeat = 8000000 * (1 - 0.9)], which in
    binary64 is [799999.9999999998] and lies within [1e-9] of the [800000]
    that the same formula gives in exact arithmetic;
    [flueGases.volume = 10800]; [flueGases.temp = 180];
    [flueGases.composition = {CO2:10, H2O:15, O2:5, N2:70}];
    [emissions = {CO:100, NOx:50}]. *)
Theorem C1_scenarioA :
  let out := scenarioA (num := float) in
  out.(BoilerOutput.steam).(Steam.flowRate) = (7200000 / 1354)%float /\
  out.(BoilerOutput.steam).(Steam.flowRate) = 5317.577548005908%float /\
  out.(BoilerOutput.steam).(Steam.pressure) = 200%float /\
  out.(BoilerOutput.steam).(Steam.temperature) = 552%float /\
  out.(BoilerOutput.wasteHeat) = 799999.9999999998%float /\
  (800000 - out.(BoilerOutput.wasteHeat) <? 1e-9)%float = true /\
  (scenarioA (num := R)).(BoilerOutput.wasteHeat) = 800000%R /\
  out.(BoilerOutput.flueGases).(FlueGases.volume) = 10800%float /\
  out.(BoilerOutput.flueGases).(FlueGases.temp) = 180%float /\
  out.(BoilerOutput.flueGases).(FlueGases.composition)
    = {[ "CO2" := 10%float; "H2O" := 15%float; "O2" := 5%float; "N2" := 70%float ]} /\
  out.(BoilerOutput.emissions) = {[ "CO" := 100%float; "NOx" := 50%float ]}.
Proof.
  intros out. subst out. rewrite scenarioA_float. cbn.
  repeat split; try reflexivity.
  unfold Q2R; cbn. lra.
Qed.

(** ** The stages, for every input

    The statements of this section hold for any arithmetic, in particular
    for binary64: they follow the data through the stages and use no law of
    the numbers. *)

Section EveryInput.
Context {num : Type} `{Number num}.
Local Open Scope num_scope.

Variables (fuel : Fuel.t num) (water : Water.t num) (air : Air.t num).
Variables (electricity : num) (controlSettings : ControlSettings.t num).

(** The steam record is stage 3 run on nine tenths of the combustion
    energy, whatever the params. *)
Lemma boiler_steam (params : option (BoilerParams.t num)) :
  (boiler fuel water air electricity controlSettings params).(BoilerOutput.steam)
  = steamGeneration (fuel.(Fuel.quantity) * fuel.(Fuel.heatContent) * lit 0.9)
      water controlSettings
      (default defaultParams params).(BoilerParams.pressure).(Range.min).
Proof. reflexivity. Qed.

(** Stage 3 never reads its fourth argument. *)
Lemma steamGeneration_pressure_unused (heatTransferred pressure pressure' : num) :
  steamGeneration heatTransferred water controlSettings pressure
  = steamGeneration heatTransferred water controlSettings pressure'.
Proof. reflexivity. Qed.

Lemma steamGeneration_flowRate (heatTransferred pressure : num) :
  (steamGeneration heatTransferred water controlSettings pressure).(Steam.flowRate)
  = heatTransferred / totalHeatPerLb water controlSettings.
Proof. reflexivity. Qed.

(** C3.  For every input and every [params.efficiency] (in [[0,1]] or not),
    [wasteHeat = fuel.quantity * fuel.heatContent * (1 - params.efficiency)];
    the heat that [heatTransfer] hands to steam generation is
    [fuel.quantity * fuel.heatContent * 0.9], the steam record is computed
    from that amount, and it is the same for every other efficiency.  With
    the params omitted the efficiency is the default [0.9]. *)
Theorem C3_efficiency_split (params0 : BoilerParams.t num) (efficiency : num) :
  let energy := fuel.(Fuel.quantity) * fuel.(Fuel.heatContent) in
  let params := setEfficiency efficiency params0 in
  let out := boiler fuel water air electricity controlSettings (Some params) in
  out.(BoilerOutput.wasteHeat) = energy * (lit 1 - efficiency) /\
  (heatTransfer (furnace fuel air).(Combustion.energy)
     (furnace fuel air).(Combustion.flueGases) water
     params.(BoilerParams.tubeConfig) params.(BoilerParams.heatTransferCoeff)
     params.(BoilerParams.furnaceDesign)).(HeatTransfer.heatTransferred)
    = energy * lit 0.9 /\
  out.(BoilerOutput.steam)
    = steamGeneration (energy * lit 0.9) water controlSettings
        params.(BoilerParams.pressure).(Range.min) /\
  (forall efficiency' : num,
     (boiler fuel water air electricity controlSettings
        (Some (setEfficiency efficiency' params))).(BoilerOutput.steam)
     = out.(BoilerOutput.steam)) /\
  (boiler fuel water air electricity controlSettings None).(BoilerOutput.wasteHeat)
    = energy * (lit 1 - lit 0.9).
Proof. cbv zeta. repeat split. Qed.

(** C4.  For every input, the flue gases of the output have
    [volume = air.quantity * 0.9], [temp = 180] and
    [composition = {CO2:10, H2O:15, O2:5, N2:70}], and the emissions are
    [{CO:100, NOx:50}]. *)
Theorem C4_flue_gases_and_emissions (params : option (BoilerParams.t num)) :
  let out := boiler fuel water air electricity controlSettings params in
  out.(BoilerOutput.flueGases).(FlueGases.volume) = air.(Air.quantity) * lit 0.9 /\
  out.(BoilerOutput.flueGases).(FlueGases.temp) = lit 180 /\
  out.(BoilerOutput.flueGases).(FlueGases.composition)
    = {[ "CO2" := lit 10; "H2O" := lit 15; "O2" := lit 5; "N2" := lit 70 ]} /\
  out.(BoilerOutput.emissions) = {[ "CO" := lit 100; "NOx" := lit 50 ]}.
Proof. cbv zeta. repeat split. Qed.

(** C6.  Two calls whose params agree on [efficiency] and [pressure.min]
    and differ in any of [tubeConfig], [furnaceDesign], [heatTransferCoeff],
    [refractory], [horsepower], [steamOutput], [pressure.max] return equal
    outputs. *)
Theorem C6_dead_params
    (efficiency pressureMin : num)
    (horsepower horsepower' steamOutput steamOutput' : Range.t num)
    (pressureMax pressureMax' : num)
    (furnaceDesign furnaceDesign' : FurnaceDesign.t)
    (tubeConfig tubeConfig' : TubeConfig.t num)
    (refractory refractory' : Refractory.t num)
    (heatTransferCoeff heatTransferCoeff' : num) :
  boiler fuel water air electricity controlSettings
    (Some {| BoilerParams.efficiency := efficiency;
             BoilerParams.horsepower := horsepower;
             BoilerParams.steamOutput := steamOutput;
             BoilerParams.pressure :=
               {| Range.min := pressureMin; Range.max := pressureMax |};
             BoilerParams.furnaceDesign := furnaceDesign;
             BoilerParams.tubeConfig := tubeConfig;
             BoilerParams.refractory := refractory;
             BoilerParams.heatTransferCoeff := heatTransferCoeff |})
  = boiler fuel water air electricity controlSettings
      (Some {| BoilerParams.efficiency := efficiency;
               BoilerParams.horsepower := horsepower';
               BoilerParams.steamOutput := steamOutput';
               BoilerParams.pressure :=
                 {| Range.min := pressureMin; Range.max := pressureMax' |};
               BoilerParams.furnaceDesign := furnaceDesign';
               BoilerParams.tubeConfig := tubeConfig';
               BoilerParams.refractory := refractory';
               BoilerParams.heatTransferCoeff := heatTransferCoeff' |}).
Proof. reflexivity. Qed.

(** Replacing [params.pressure.min] changes nothing: the value only
    reaches the unread fourth argument of [steamGeneration]. *)
Lemma boiler_setPressureMin (params : BoilerParams.t num) (min min' : num) :
  boiler fuel water air electricity controlSettings (Some (setPressureMin min params))
  = boiler fuel water air electricity controlSettings (Some (setPressureMin min' params)).
Proof.
  unfold boiler. cbn [default from_option setPressureMin BoilerParams.pressure
    BoilerParams.efficiency BoilerParams.tubeConfig BoilerParams.furnaceDesign
    BoilerParams.heatTransferCoeff Range.min].
  now rewrite (steamGeneration_pressure_unused _ min min').
Qed.

(** C7, amended.  [params.pressure.min] does not affect the results: two
    calls whose arguments differ only in [params.pressure.min] return equal
    outputs.  The value is passed to [steamGeneration], which works from
    [controlSettings.pressure] and never reads it. *)
Theorem C7_pressure_min_unused (params : BoilerParams.t num) (min min' : num) :
  boiler fuel water air electricity controlSettings (Some (setPressureMin min params))
  = boiler fuel water air electricity controlSettings (Some (setPressureMin min' params)).
Proof. apply boiler_setPressureMin. Qed.

End EveryInput.

(** C10.  Two calls that differ only in [electricity], [air.temperature],
    [water.quantity] and [controlSettings.temperature] return equal
    outputs. *)
Theorem C10_unused_inputs {num : Type} `{Number num}
    (fuel : Fuel.t num) (params : option (BoilerParams.t num))
    (waterTemperature airQuantity pressure : num)
    (electricity electricity' : num)
    (airTemperature airTemperature' : num)
    (waterQuantity waterQuantity' : num)
    (targetTemperature targetTemperature' : num) :
  boiler fuel
    {| Water.quantity := waterQuantity; Water.temperature := waterTemperature |}
    {| Air.quantity := airQuantity; Air.temperature := airTemperature |}
    electricity
    {| ControlSettings.pressure := pressure;
       ControlSettings.temperature := targetTemperature |}
    params
  = boiler fuel
      {| Water.quantity := waterQuantity'; Water.temperature := waterTemperature |}
      {| Air.quantity := airQuantity; Air.temperature := airTemperature' |}
      electricity'
      {| ControlSettings.pressure := pressure;
         ControlSettings.temperature := targetTemperature' |}
      params.
Proof. reflexivity. Qed.

(** C2.  For every input the steam record satisfies
    [steam.pressure = controlSettings.pressure],
    [steam.temperature = 212 + controlSettings.pressure * 1.7] and
    [steam.flowRate = heatTransferred / totalHeatPerUnit], where
    [heatTransferred] is [0.9] times the energy
    [fuel.quantity * fuel.heatContent] and
    [totalHeatPerUnit = (steam.temperature - (water.temperature * 1.8 + 32))
                        + (970 - controlSettings.pressure * 0.5)].
    The source multiplies the energy by [0.9] on the right; the product is
    the same with [0.9] on the left because multiplication commutes. *)
Theorem C2_steam_formulas {num : Type} `{MulComm num}
    (fuel : Fuel.t num) (water : Water.t num) (air : Air.t num)
    (electricity : num) (controlSettings : ControlSettings.t num)
    (params : option (BoilerParams.t num)) :
  let steam :=
    (boiler fuel water air electricity controlSettings params).(BoilerOutput.steam) in
  let heatTransferred :=
    (lit 0.9 * (fuel.(Fuel.quantity) * fuel.(Fuel.heatContent)))%num in
  let totalHeatPerUnit :=
    ((steam.(Steam.temperature) - (water.(Water.temperature) * lit 1.8 + lit 32))
     + (lit 970 - controlSettings.(ControlSettings.pressure) * lit 0.5))%num in
  steam.(Steam.pressure) = controlSettings.(ControlSettings.pressure) /\
  steam.(Steam.temperature)
    = (lit 212 + controlSettings.(ControlSettings.pressure) * lit 1.7)%num /\
  steam.(Steam.flowRate) = (heatTransferred / totalHeatPerUnit)%num.
Proof.
  intros steam heatTransferred totalHeatPerUnit.
  subst steam heatTransferred totalHeatPerUnit.
  rewrite boiler_steam. repeat split.
  rewrite steamGeneration_flowRate.
  now rewrite (mul_comm (lit 0.9)).
Qed.

(** The formulas of C2 on the doubles of Scenario A. *)
Lemma C2_steam_formulas_scenarioA :
  let steam := (scenarioA (num := float)).(BoilerOutput.steam) in
  steam.(Steam.pressure) = 200%float /\
  steam.(Steam.temperature) = (212 + 200 * 1.7)%float /\
  steam.(Steam.flowRate)
    = (0.9 * (1000 * 8000) / ((552 - (20 * 1.8 + 32)) + (970 - 200 * 0.5)))%float.
Proof.
  exact (C2_steam_formulas (num := float) fuelA waterA airA electricityA controlA None).
Defined.

(** ** [params.pressure.min] *)

(** C7, counterexample.  No two calls that differ only in
    [params.pressure.min] return different outputs. *)
Lemma C7_pressure_min_counterexample :
  ~ exists (fuel : Fuel.t float) (water : Water.t float) (air : Air.t float)
      (electricity : float) (controlSettings : ControlSettings.t float)
      (params : BoilerParams.t float) (min min' : float),
      boiler fuel water air electricity controlSettings
        (Some (setPressureMin min params))
      <> boiler fuel water air electricity controlSettings
           (Some (setPressureMin min' params)).
Proof.
  intros (fuel & water & air & electricity & controlSettings & params
          & min & min' & Hdiffer).
  apply Hdiffer, boiler_setPressureMin.
Qed.

(** ** Totality and the unguarded division *)

(** C8.  [boiler] returns an output for every input: the stages are
    straight-line arithmetic, none of them can fail.  The steam flow rate is
    always the quotient [heatTransferred / totalHeatPerLb]; the division is
    not guarded, and when [totalHeatPerLb] is a zero the flow rate is the
    degenerate value IEEE division gives, an infinity or NaN. *)
Theorem C8_total_unguarded_division
    (fuel : Fuel.t float) (water : Water.t float) (air : Air.t float)
    (electricity : float) (controlSettings : ControlSettings.t float)
    (params : option (BoilerParams.t float)) :
  exists out : BoilerOutput.t float,
    boiler fuel water air electricity controlSettings params = out /\
    out.(BoilerOutput.steam).(Steam.flowRate)
      = (fuel.(Fuel.quantity) * fuel.(Fuel.heatContent) * 0.9
         / totalHeatPerLb water controlSettings)%float /\
    (is_zero (totalHeatPerLb water controlSettings) = true ->
     is_finite out.(BoilerOutput.steam).(Steam.flowRate) = false).
Proof.
  eexists. split; [reflexivity |].
  rewrite boiler_steam, steamGeneration_flowRate.
  split; [reflexivity |].
  apply Float64Facts.div_by_zero_not_finite.
Qed.

(** C8 at an operating point with a zero denominator: the call returns, and
    the flow rate is not a finite number. *)
Lemma C8_zero_denominator :
  is_zero (totalHeatPerLb balancedWater balancedControl) = true /\
  is_finite
    (boiler fuelA balancedWater airA electricityA balancedControl None)
      .(BoilerOutput.steam).(Steam.flowRate) = false.
Proof.
  split; [reflexivity |].
  destruct (C8_total_unguarded_division fuelA balancedWater airA electricityA
              balancedControl None) as (out & <- & _ & Hdegenerate).
  apply Hdegenerate. reflexivity.
Defined.

(** There the flow rate is [7200000 / 0], positive infinity. *)
Example zero_denominator_flowRate :
  (boiler fuelA balancedWater airA electricityA balancedControl None)
    .(BoilerOutput.steam).(Steam.flowRate) = infinity.
Proof. reflexivity. Qed.

(** ** Doubling the fuel *)

(** C5, counterexample.  Doubling [fuel.quantity] of a fuel with
    [quantity = 1e200] and [heatContent = 1e108] does not double the waste
    heat: the energy [1e308] becomes [Infinity], since [2e308] exceeds the
    largest double, and so does the waste heat, while twice the former waste
    heat is finite, about [2e307]. *)
Lemma C5_doubling_counterexample :
  ~ outputDoubles denseFuel (scaleQuantity (lit 2) denseFuel)
      waterA airA electricityA controlA None.
Proof.
  intros (_ & _ & Hwaste & _). vm_compute in Hwaste. discriminate Hwaste.
Qed.

Example denseFuel_wasteHeat :
  (boiler denseFuel waterA airA electricityA controlA None).(BoilerOutput.wasteHeat)
    = 9.9999999999999974e+306%float /\
  (boiler (scaleQuantity (lit 2) denseFuel) waterA airA electricityA controlA None)
    .(BoilerOutput.wasteHeat) = infinity.
Proof. split; reflexivity. Qed.

(** Rounding in the subnormal range breaks the doubling too, with every
    value finite: [15 * 5e-324] is 15 units of the last place and a tenth of
    it rounds to 1 unit, [30 * 5e-324] is 30 units and a tenth of it rounds
    to 3 units. *)
Example subnormal_wasteHeat :
  let tiny := {| Fuel.type := "wood"; Fuel.quantity := 15%float;
                 Fuel.heatContent := 5e-324%float |} in
  (boiler tiny waterA airA electricityA controlA None).(BoilerOutput.wasteHeat)
    = 5e-324%float /\
  (boiler (scaleQuantity (lit 2) tiny) waterA airA electricityA controlA None)
    .(BoilerOutput.wasteHeat) = (3 * 5e-324)%float.
Proof. split; reflexivity. Qed.

(** Multiplying a double of ordinary magnitude by 2 adds one to its exponent
    and rounds nothing; and the rounding of a product or a quotient does not
    depend on the exponent as long as the result is a normal number.  So in
    that range doubling commutes with the rounded operations. *)
Module Float64Scaling.
Local Open Scope Z_scope.

Lemma Zdigits2_nonneg (m : Z) : 0 <= Zdigits2 m.
Proof. destruct m; cbn; lia. Qed.

(** Away from the subnormal range the rounding shift does not depend on the
    exponent: raising the exponent by one raises the result's by one. *)
Lemma shr_fexp_succ (m e : Z) (l : location) :
  -1021 <= e ->
  shr_fexp prec emax m (e + 1) l
  = ((shr_fexp prec emax m e l).1, (shr_fexp prec emax m e l).2 + 1)
  /\ e <= (shr_fexp prec emax m e l).2.
Proof.
  intros He. unfold shr_fexp, fexp, emin, prec, emax.
  pose proof (Zdigits2_nonneg m) as Hd.
  replace (Z.max (Zdigits2 m + (e + 1) - 53) (3 - 1024 - 53) - (e + 1))
    with (Zdigits2 m - 53) by lia.
  replace (Z.max (Zdigits2 m + e - 53) (3 - 1024 - 53) - e)
    with (Zdigits2 m - 53) by lia.
  unfold shr. destruct (Zdigits2 m - 53) as [| p | p]; cbn [fst snd]; split;
    try reflexivity; try lia.
  f_equal. lia.
Qed.

Lemma round_aux_succ (s : bool) (m e : Z) (l : location) (s' : bool)
    (m' : positive) (e' : Z) :
  -1021 <= e -> e' + 1 <= 971 ->
  binary_round_aux prec emax s m e l = S754_finite s' m' e' ->
  binary_round_aux prec emax s m (e + 1) l = S754_finite s' m' (e' + 1).
Proof.
  intros He He'. unfold binary_round_aux.
  destruct (shr_fexp_succ m e l He) as [-> He1].
  destruct (shr_fexp prec emax m e l) as [mrs1 e1]. cbn [fst snd] in *.
  destruct (shr_fexp_succ
              (round_nearest_even (shr_m mrs1) (loc_of_shr_record mrs1))
              e1 loc_Exact ltac:(lia)) as [-> _].
  destruct (shr_fexp prec emax _ e1 loc_Exact) as [mrs2 e2]. cbn [fst snd].
  destruct (shr_m mrs2) as [| p | p]; try discriminate.
  unfold prec, emax.
  destruct (Z.leb_spec e2 (1024 - 53)); [| discriminate].
  intros Hr. injection Hr as -> -> ->.
  destruct (Z.leb_spec (e' + 1) (1024 - 53)); [reflexivity | lia].
Qed.

Lemma shr_two_pow_52 (m : positive) :
  SpecFloat.iter_pos shr_1 52 (shr_record_of_loc (Zpos (4503599627370496 * m)) loc_Exact)
  = {| shr_m := Zpos m; shr_r := false; shr_s := false |}.
Proof.
  change (4503599627370496 * m)%positive with (Pos.iter xO m 52).
  cbn [Pos.iter]. reflexivity.
Qed.

Lemma digits2_pos_two_pow_52 (m : positive) :
  digits2_pos m = 53%positive ->
  digits2_pos (4503599627370496 * m) = 105%positive.
Proof.
  intros Hd.
  change (4503599627370496 * m)%positive with (Pos.iter xO m 52).
  cbn [Pos.iter digits2_pos]. rewrite Hd. reflexivity.
Qed.

(** Twice a normal number that does not overflow: the same mantissa, the
    exponent one higher. *)
Lemma SF64mul_two (s : bool) (m : positive) (e : Z) :
  digits2_pos m = 53%positive -> -1074 <= e -> e + 1 <= 971 ->
  SF64mul SFtwo (S754_finite s m e) = S754_finite s m (e + 1).
Proof.
  intros Hd Hlo Hhi. unfold SF64mul, SFmul, SFtwo. cbn [xorb].
  unfold binary_round_aux.
  assert (H1 : shr_fexp prec emax (Zpos (4503599627370496 * m)) (-51 + e) loc_Exact
               = ({| shr_m := Zpos m; shr_r := false; shr_s := false |}, e + 1)).
  { unfold shr_fexp. cbn [Zdigits2]. rewrite (digits2_pos_two_pow_52 m Hd).
    unfold fexp, emin, prec, emax.
    replace (Z.max (105 + (-51 + e) - 53) (3 - 1024 - 53) - (-51 + e)) with 52 by lia.
    unfold shr. rewrite shr_two_pow_52. f_equal. lia. }
  rewrite H1. cbn [shr_m loc_of_shr_record round_nearest_even].
  assert (H2 : shr_fexp prec emax (Zpos m) (e + 1) loc_Exact
               = ({| shr_m := Zpos m; shr_r := false; shr_s := false |}, e + 1)).
  { unfold shr_fexp. cbn [Zdigits2]. rewrite Hd.
    unfold fexp, emin, prec, emax.
    replace (Z.max (53 + (e + 1) - 53) (3 - 1024 - 53) - (e + 1)) with 0 by lia.
    reflexivity. }
  rewrite H2. cbn [shr_m]. unfold prec, emax.
  destruct (Z.leb_spec (e + 1) (1024 - 53)); [reflexivity | lia].
Qed.

(** A double in range is a normal number: a 53-bit mantissa and an exponent
    far from both ends. *)
Lemma inRange_inv (x : float) :
  inRange x ->
  exists (s : bool) (m : positive) (e : Z),
    Prim2SF x = S754_finite s m e /\ digits2_pos m = 53%positive /\ -385 <= e <= 280.
Proof.
  intros [Hlo Hhi]. pose proof (Prim2SF_valid x) as Hv.
  rewrite leb_spec, abs_spec in Hlo, Hhi.
  change (Prim2SF 1e-100) with (S754_finite false 7880401239278896 (-385)) in Hlo.
  change (Prim2SF 1e100) with (S754_finite false 5147557589468029 280) in Hhi.
  destruct (Prim2SF x) as [s | s | | s m e]; try discriminate.
  exists s, m, e. split; [reflexivity |].
  cbn [SFabs] in Hlo, Hhi. unfold SFleb, SFcompare in Hlo, Hhi.
  assert (He : -385 <= e <= 280).
  { destruct (Z.compare_spec (-385) e); destruct (Z.compare_spec e 280);
      try discriminate; lia. }
  split; [| exact He].
  unfold valid_binary, SpecFloat.valid_binary, bounded, canonical_mantissa, fexp,
    emin, prec, emax in Hv.
  apply andb_prop in Hv as [Hc _]. apply Z.eqb_eq in Hc.
  assert (Hd : Zpos (digits2_pos m) = 53) by lia.
  now injection Hd.
Qed.

(** The quotient before rounding, with the dividend's exponent one higher. *)
Lemma SFdiv_core_succ (m1 m2 : positive) (e1 e2 : Z) :
  digits2_pos m1 = 53%positive -> digits2_pos m2 = 53%positive ->
  -385 <= e1 <= 280 -> -385 <= e2 <= 280 ->
  exists (q : Z) (l : location),
    SFdiv_core_binary prec emax (Zpos m1) e1 (Zpos m2) e2 = (q, e1 - e2 - 53, l) /\
    SFdiv_core_binary prec emax (Zpos m1) (e1 + 1) (Zpos m2) e2
      = (q, e1 - e2 - 53 + 1, l).
Proof.
  intros Hd1 Hd2 He1 He2. unfold SFdiv_core_binary. cbn [Zdigits2].
  rewrite Hd1, Hd2. unfold fexp, emin, prec, emax.
  replace (Z.min (Z.max (53 + (e1 + 1) - (53 + e2) - 53) (3 - 1024 - 53)) (e1 + 1 - e2))
    with (e1 - e2 - 53 + 1) by lia.
  replace (Z.min (Z.max (53 + e1 - (53 + e2) - 53) (3 - 1024 - 53)) (e1 - e2))
    with (e1 - e2 - 53) by lia.
  replace (e1 + 1 - e2 - (e1 - e2 - 53 + 1)) with 53 by lia.
  replace (e1 - e2 - (e1 - e2 - 53)) with 53 by lia.
  destruct (Z.div_eucl (Z.shiftl (Zpos m1) 53) (Zpos m2)) as [q r].
  exists q, (new_location (Zpos m2) r). split; reflexivity.
Qed.

Local Open Scope float_scope.

Lemma Prim2SF_two_mul (x : float) (s : bool) (m : positive) (e : Z) :
  Prim2SF x = S754_finite s m e -> digits2_pos m = 53%positive ->
  (-385 <= e <= 280)%Z ->
  Prim2SF (2 * x) = S754_finite s m (e + 1).
Proof.
  intros Hx Hd He. rewrite mul_spec, Hx. change (Prim2SF 2) with SFtwo.
  apply SF64mul_two; [exact Hd | lia | lia].
Qed.

(** In range, doubling a factor doubles the rounded product. *)
Lemma mul64_double (x y : float) :
  inRange x -> inRange y -> inRange (x * y) -> 2 * x * y = 2 * (x * y).
Proof.
  intros Hx Hy Hz.
  destruct (inRange_inv x Hx) as (sx & mx & ex & Hsx & Hdx & Hex).
  destruct (inRange_inv y Hy) as (sy & my & ey & Hsy & Hdy & Hey).
  destruct (inRange_inv (x * y) Hz) as (sz & mz & ez & Hsz & Hdz & Hez).
  apply Prim2SF_inj.
  rewrite (Prim2SF_two_mul (x * y) sz mz ez Hsz Hdz Hez).
  rewrite mul_spec, (Prim2SF_two_mul x sx mx ex Hsx Hdx Hex), Hsy.
  rewrite mul_spec, Hsx, Hsy in Hsz.
  unfold SF64mul, SFmul in Hsz |- *.
  replace (ex + 1 + ey)%Z with (ex + ey + 1)%Z by lia.
  apply Float64Scaling.round_aux_succ; [lia | lia | exact Hsz].
Qed.

(** In range, doubling the dividend doubles the rounded quotient. *)
Lemma div64_double (x y : float) :
  inRange x -> inRange y -> inRange (x / y) -> 2 * x / y = 2 * (x / y).
Proof.
  intros Hx Hy Hz.
  destruct (inRange_inv x Hx) as (sx & mx & ex & Hsx & Hdx & Hex).
  destruct (inRange_inv y Hy) as (sy & my & ey & Hsy & Hdy & Hey).
  destruct (inRange_inv (x / y) Hz) as (sz & mz & ez & Hsz & Hdz & Hez).
  apply Prim2SF_inj.
  rewrite (Prim2SF_two_mul (x / y) sz mz ez Hsz Hdz Hez).
  rewrite div_spec, (Prim2SF_two_mul x sx mx ex Hsx Hdx Hex), Hsy.
  rewrite div_spec, Hsx, Hsy in Hsz.
  unfold SF64div, SFdiv in Hsz |- *.
  destruct (SFdiv_core_succ mx my ex ey Hdx Hdy Hex Hey) as (q & l & Hcore & Hcore').
  rewrite Hcore in Hsz. rewrite Hcore'.
  apply Float64Scaling.round_aux_succ; [lia | lia | exact Hsz].
Qed.
End Float64Scaling.

(** C5, amended.  On doubles, doubling [fuel.quantity] or [fuel.heatContent]
    (every other argument fixed) doubles the energy, the heat transferred,
    the waste heat and the steam flow rate exactly, roundings included,
    whenever the two fuel figures, [1 - params.efficiency], [totalHeatPerLb]
    and the energy, heat transferred, waste heat and flow rate of the run
    all have a magnitude between [1e-100] and [1e100].  In exact real
    arithmetic it does so for all real inputs. *)
Theorem C5_doubling_in_range :
  (forall (fuel : Fuel.t float) (water : Water.t float) (air : Air.t float)
          (electricity : float) (controlSettings : ControlSettings.t float)
          (params : option (BoilerParams.t float)),
     ordinaryMagnitudes fuel water air electricity controlSettings params ->
     outputDoubles fuel (scaleQuantity (lit 2) fuel)
       water air electricity controlSettings params /\
     outputDoubles fuel (scaleHeatContent (lit 2) fuel)
       water air electricity controlSettings params) /\
  (forall (fuel : Fuel.t R) (water : Water.t R) (air : Air.t R)
          (electricity : R) (controlSettings : ControlSettings.t R)
          (params : option (BoilerParams.t R)),
     outputDoubles fuel (scaleQuantity (lit 2) fuel)
       water air electricity controlSettings params /\
     outputDoubles fuel (scaleHeatContent (lit 2) fuel)
       water air electricity controlSettings params).
Proof.
  split.
  - intros fuel water air electricity controlSettings params
      (Hq & Hh & Hw & Ht & He & Hheat & Hwaste & Hflow).
    unfold outputDoubles. cbv zeta.
    rewrite !boiler_steam, !steamGeneration_flowRate.
    rewrite boiler_steam, steamGeneration_flowRate in Hflow.
    set (total := totalHeatPerLb water controlSettings) in *.
    set (w := (lit 1 - (default defaultParams params).(BoilerParams.efficiency))%num) in *.
    destruct fuel as [type q h].
    change (inRange q) in Hq. change (inRange h) in Hh.
    change (inRange (q * h)%float) in He.
    change (inRange (q * h * 0.9)%float) in Hheat.
    change (inRange (q * h * w)%float) in Hwaste.
    change (inRange (q * h * 0.9 / total)%float) in Hflow.
    assert (H09 : inRange 0.9%float) by (split; reflexivity).
    assert (Hquantity : (2 * q * h = 2 * (q * h))%float)
      by now apply Float64Scaling.mul64_double.
    assert (Hcontent : (q * (2 * h) = 2 * (q * h))%float).
    { rewrite (Float64Facts.mul64_comm q (2 * h)), (Float64Facts.mul64_comm q h).
      apply Float64Scaling.mul64_double; [exact Hh | exact Hq |].
      now rewrite (Float64Facts.mul64_comm h q). }
    assert (Hheat2 : (2 * (q * h) * 0.9 = 2 * (q * h * 0.9))%float)
      by now apply Float64Scaling.mul64_double.
    assert (Hwaste2 : (2 * (q * h) * w = 2 * (q * h * w))%float)
      by now apply Float64Scaling.mul64_double.
    assert (Hflow2 : (2 * (q * h * 0.9) / total = 2 * (q * h * 0.9 / total))%float)
      by now apply Float64Scaling.div64_double.
    split.
    + change ((2 * q * h = 2 * (q * h))%float /\
              (2 * q * h * 0.9 = 2 * (q * h * 0.9))%float /\
              (2 * q * h * w = 2 * (q * h * w))%float /\
              (2 * q * h * 0.9 / total = 2 * (q * h * 0.9 / total))%float).
      rewrite Hquantity, Hheat2.
      split; [reflexivity | split; [reflexivity | split; assumption]].
    + change ((q * (2 * h) = 2 * (q * h))%float /\
              (q * (2 * h) * 0.9 = 2 * (q * h * 0.9))%float /\
              (q * (2 * h) * w = 2 * (q * h * w))%float /\
              (q * (2 * h) * 0.9 / total = 2 * (q * h * 0.9 / total))%float).
      rewrite Hcontent, Hheat2.
      split; [reflexivity | split; [reflexivity | split; assumption]].
  - intros fuel water air electricity controlSettings params.
    unfold outputDoubles. cbv zeta.
    rewrite !boiler_steam, !steamGeneration_flowRate.
    cbn. unfold Q2R, Rdiv. cbn.
    repeat split; ring.
Qed.

(** C5 on Scenario A, whose magnitudes are ordinary (the energy is [8e6],
    the flow rate about [5317.6]): doubling the 1000 units of fuel, or the
    heat content of 8000, doubles the four results on doubles. *)
Lemma C5_doubling_in_range_scenarioA :
  outputDoubles (num := float) fuelA (scaleQuantity (lit 2) fuelA)
    waterA airA electricityA controlA None /\
  outputDoubles (num := float) fuelA (scaleHeatContent (lit 2) fuelA)
    waterA airA electricityA controlA None.
Proof.
  apply (proj1 C5_doubling_in_range fuelA waterA airA electricityA controlA None).
  vm_compute. repeat split.
Defined.

(** ** Finite, non-negative fields *)

(** The two maps the pipeline fills in hold constants only. *)
Lemma constant_maps {num : Type} `{Number num} (P : num -> Prop)
    (fuel : Fuel.t num) (air : Air.t num) :
  P (lit 10) -> P (lit 15) -> P (lit 5) -> P (lit 70) ->
  P (lit 100) -> P (lit 50) ->
  map_Forall (fun _ => P) (calculateFlueGasComposition fuel air) /\
  map_Forall (fun _ => P) (calculateEmissions fuel.(Fuel.type)).
Proof.
  intros H10 H15 H5 H70 H100 H50.
  unfold calculateFlueGasComposition, calculateEmissions. split.
  - repeat apply map_Forall_insert_2; try assumption.
    apply map_Forall_empty.
  - repeat apply map_Forall_insert_2; try assumption.
    apply map_Forall_empty.
Qed.


Example hotWater_flowRate :
  totalHeatPerLb hotWater controlA = (-410)%float /\
  (boiler fuelA hotWater airA electricityA controlA None)
    .(BoilerOutput.steam).(Steam.flowRate) = (7200000 / -410)%float.
Proof. split; reflexivity. Qed.



(** * Further properties of the model *)

(** ** The fuel enters through its energy only *)

(** X5.  Two fuels with the same product [quantity * heatContent] give the same
    output, whatever their types: nothing else of the fuel is read. *)
Theorem fuel_enters_through_energy {num : Type} `{Number num}
    (fuel fuel' : Fuel.t num) (water : Water.t num) (air : Air.t num)
    (electricity : num) (controlSettings : ControlSettings.t num)
    (params : option (BoilerParams.t num)) :
  (fuel.(Fuel.quantity) * fuel.(Fuel.heatContent)
   = fuel'.(Fuel.quantity) * fuel'.(Fuel.heatContent))%num ->
  boiler fuel water air electricity controlSettings params
  = boiler fuel' water air electricity controlSettings params.
Proof.
  intros Henergy. unfold boiler, furnace, heatTransfer, generateFlueGases.
  cbn. now rewrite Henergy.
Qed.

(** On doubles: burning 8000 units of a fuel of heat content 1000 gives the
    output of Scenario A. *)
Lemma fuel_enters_through_energy_swapped :
  boiler (num := float) fuelA waterA airA electricityA controlA None
  = boiler {| Fuel.type := "coal"; Fuel.quantity := 8000%float;
              Fuel.heatContent := 1000%float |}
      waterA airA electricityA controlA None.
Proof.
  apply (fuel_enters_through_energy (num := float)). reflexivity.
Defined.

(** ** Zero fuel, on doubles *)

Module Float64Zero.
Local Open Scope float_scope.

Lemma is_zero_intro (x : float) (s : bool) :
  Prim2SF x = S754_zero s -> is_zero x = true.
Proof.
  intros Hx. unfold is_zero. rewrite FloatAxioms.eqb_spec, Hx. reflexivity.
Qed.

Lemma is_nan_intro (x : float) : Prim2SF x = S754_nan -> is_nan x = true.
Proof.
  intros Hx. unfold is_nan. rewrite FloatAxioms.eqb_spec, Hx. reflexivity.
Qed.

(** A finite double is a zero or a finite number of either sign. *)
Lemma is_finite_inv (x : float) :
  is_finite x = true ->
  (exists s, Prim2SF x = S754_zero s) \/ (exists s m e, Prim2SF x = S754_finite s m e).
Proof.
  unfold is_finite, is_nan, is_infinity.
  rewrite !FloatAxioms.eqb_spec, abs_spec.
  destruct (Prim2SF x) as [s|s| |s m e]; intros Hx; eauto.
  - destruct s; discriminate Hx.
  - discriminate Hx.
Qed.

(** A double that is neither a zero nor NaN is an infinity or a finite
    number. *)
Lemma nonzero_inv (x : float) :
  is_zero x = false -> is_nan x = false ->
  (exists s, Prim2SF x = S754_infinity s) \/ (exists s m e, Prim2SF x = S754_finite s m e).
Proof.
  unfold is_zero, is_nan. rewrite !FloatAxioms.eqb_spec.
  destruct (Prim2SF x) as [s|s| |s m e]; intros Hz Hn; eauto; discriminate.
Qed.

Lemma mul_zero_finite (x y : float) :
  is_zero x = true -> is_finite y = true -> is_zero (x * y) = true.
Proof.
  intros Hx Hy. destruct (Float64Facts.is_zero_inv x Hx) as [sx Hsx].
  destruct (is_finite_inv y Hy) as [[sy Hsy] | (sy & my & ey & Hsy)];
    apply (is_zero_intro _ (xorb sx sy)); now rewrite mul_spec, Hsx, Hsy.
Qed.

Lemma mul_finite_zero (x y : float) :
  is_finite x = true -> is_zero y = true -> is_zero (x * y) = true.
Proof.
  intros Hx Hy. rewrite Float64Facts.mul64_comm. now apply mul_zero_finite.
Qed.

Lemma div_zero_nonzero (x y : float) :
  is_zero x = true -> is_zero y = false -> is_nan y = false ->
  is_zero (x / y) = true.
Proof.
  intros Hx Hz Hn. destruct (Float64Facts.is_zero_inv x Hx) as [sx Hsx].
  destruct (nonzero_inv y Hz Hn) as [[sy Hsy] | (sy & my & ey & Hsy)];
    apply (is_zero_intro _ (xorb sx sy)); now rewrite div_spec, Hsx, Hsy.
Qed.

Lemma add_zero_zero (x y : float) :
  is_zero x = true -> is_zero y = true -> is_zero (x + y) = true.
Proof.
  intros Hx Hy. destruct (Float64Facts.is_zero_inv x Hx) as [sx Hsx].
  destruct (Float64Facts.is_zero_inv y Hy) as [sy Hsy].
  apply (is_zero_intro _ (andb sx sy)). rewrite add_spec, Hsx, Hsy.
  now destruct sx, sy.
Qed.

Lemma div_zero_zero (x y : float) :
  is_zero x = true -> is_zero y = true -> is_nan (x / y) = true.
Proof.
  intros Hx Hy. destruct (Float64Facts.is_zero_inv x Hx) as [sx Hsx].
  destruct (Float64Facts.is_zero_inv y Hy) as [sy Hsy].
  apply is_nan_intro. now rewrite div_spec, Hsx, Hsy.
Qed.

Lemma is_nan_inv (x : float) : is_nan x = true -> Prim2SF x = S754_nan.
Proof.
  unfold is_nan. rewrite FloatAxioms.eqb_spec.
  destruct (Prim2SF x) as [s|s| |s m e]; intros Hx; try reflexivity;
    cbn in Hx; try discriminate Hx.
  - now destruct s.
  - exfalso. revert Hx. unfold SFeqb, SFcompare.
    destruct s; rewrite Z.compare_refl, Pos.compare_cont_refl; discriminate.
Qed.

Lemma mul_nan (x y : float) : is_nan x = true -> is_nan (x * y) = true.
Proof.
  intros Hx. apply is_nan_intro. now rewrite mul_spec, (is_nan_inv x Hx).
Qed.

Lemma div_nan (x y : float) : is_nan x = true -> is_nan (x / y) = true.
Proof.
  intros Hx. apply is_nan_intro. now rewrite div_spec, (is_nan_inv x Hx).
Qed.

End Float64Zero.

Section ZeroFuel.
Local Open Scope float_scope.

Variables (fuel : Fuel.t float) (water : Water.t float) (air : Air.t float).
Variables (electricity : float) (controlSettings : ControlSettings.t float).
Variable params : option (BoilerParams.t float).

Lemma noEnergy_energy :
  noEnergy fuel -> is_zero (fuel.(Fuel.quantity) * fuel.(Fuel.heatContent)) = true.
Proof.
  intros [[Hq Hh] | [Hq Hh]];
    [now apply Float64Zero.mul_zero_finite | now apply Float64Zero.mul_finite_zero].
Qed.

Lemma noEnergy_outputs :
  noEnergy fuel ->
  is_finite (1 - (default defaultParams params).(BoilerParams.efficiency)) = true ->
  is_zero (totalHeatPerLb water controlSettings) = false ->
  is_nan (totalHeatPerLb water controlSettings) = false ->
  let out := boiler fuel water air electricity controlSettings params in
  is_zero out.(BoilerOutput.wasteHeat) = true /\
  is_zero out.(BoilerOutput.steam).(Steam.flowRate) = true.
Proof.
  intros Hfuel He Hz Hn out. subst out.
  apply noEnergy_energy in Hfuel.
  rewrite boiler_steam, steamGeneration_flowRate. split.
  - now apply Float64Zero.mul_zero_finite.
  - apply Float64Zero.div_zero_nonzero; [| exact Hz | exact Hn].
    now apply Float64Zero.mul_zero_finite.
Qed.

(** X6.  Zero fuel.  On doubles, when [fuel.quantity] or [fuel.heatContent] is a
    zero and the other one is finite, [1 - params.efficiency] is finite and
    [totalHeatPerLb] is neither a zero nor NaN, the waste heat and the steam
    flow rate are zeros, while the steam pressure and temperature are what
    they are for any other fuel. *)
Theorem zero_fuel_zero_output :
  noEnergy fuel ->
  is_finite (1 - (default defaultParams params).(BoilerParams.efficiency)) = true ->
  is_zero (totalHeatPerLb water controlSettings) = false ->
  is_nan (totalHeatPerLb water controlSettings) = false ->
  let out := boiler fuel water air electricity controlSettings params in
  is_zero out.(BoilerOutput.wasteHeat) = true /\
  is_zero out.(BoilerOutput.steam).(Steam.flowRate) = true /\
  out.(BoilerOutput.steam).(Steam.pressure)
    = controlSettings.(ControlSettings.pressure) /\
  out.(BoilerOutput.steam).(Steam.temperature)
    = 212 + controlSettings.(ControlSettings.pressure) * 1.7.
Proof.
  intros Hfuel He Hz Hn out.
  destruct (noEnergy_outputs Hfuel He Hz Hn) as [Hwaste Hflow].
  repeat split; assumption || reflexivity.
Qed.

(** X8.  With no energy the "Efficiency" card has nothing to divide: the number it
    formats is [0 / (0 + 0) * 100], NaN. *)
Theorem zero_fuel_efficiency_card_is_NaN :
  noEnergy fuel ->
  is_finite (1 - (default defaultParams params).(BoilerParams.efficiency)) = true ->
  is_zero (totalHeatPerLb water controlSettings) = false ->
  is_nan (totalHeatPerLb water controlSettings) = false ->
  is_nan (BoilerVisualization.efficiencyPercent
            (boiler fuel water air electricity controlSettings params)) = true.
Proof.
  intros Hfuel He Hz Hn.
  destruct (noEnergy_outputs Hfuel He Hz Hn) as [Hwaste Hflow].
  unfold BoilerVisualization.efficiencyPercent.
  apply Float64Zero.mul_nan.
  assert (Husable :
    is_zero ((boiler fuel water air electricity controlSettings params)
               .(BoilerOutput.steam).(Steam.flowRate) * lit 1000) = true)
    by (apply Float64Zero.mul_zero_finite; [exact Hflow | reflexivity]).
  apply Float64Zero.div_zero_zero; [exact Husable |].
  now apply Float64Zero.add_zero_zero.
Qed.

End ZeroFuel.

(** X7.  A field of the form that does not parse gives NaN.  On doubles, when
    [fuel.quantity] or [fuel.heatContent] is NaN, the waste heat and the
    steam flow rate are NaN for every other input, and the rest of the output
    is what it is for any other fuel. *)
Theorem nan_fuel_poisons_heat_and_flow
    (fuel fuel' : Fuel.t float) (water : Water.t float) (air : Air.t float)
    (electricity : float) (controlSettings : ControlSettings.t float)
    (params : option (BoilerParams.t float)) :
  is_nan fuel.(Fuel.quantity) = true \/ is_nan fuel.(Fuel.heatContent) = true ->
  let out := boiler fuel water air electricity controlSettings params in
  let out' := boiler fuel' water air electricity controlSettings params in
  is_nan out.(BoilerOutput.wasteHeat) = true /\
  is_nan out.(BoilerOutput.steam).(Steam.flowRate) = true /\
  out.(BoilerOutput.steam).(Steam.pressure) = out'.(BoilerOutput.steam).(Steam.pressure) /\
  out.(BoilerOutput.steam).(Steam.temperature)
    = out'.(BoilerOutput.steam).(Steam.temperature) /\
  out.(BoilerOutput.flueGases) = out'.(BoilerOutput.flueGases) /\
  out.(BoilerOutput.emissions) = out'.(BoilerOutput.emissions).
Proof.
  intros Hnan out out'. subst out out'.
  assert (Henergy :
    is_nan (fuel.(Fuel.quantity) * fuel.(Fuel.heatContent))%float = true).
  { destruct Hnan as [Hq | Hh]; [now apply Float64Zero.mul_nan |].
    rewrite Float64Facts.mul64_comm. now apply Float64Zero.mul_nan. }
  rewrite boiler_steam, steamGeneration_flowRate.
  split; [now apply Float64Zero.mul_nan |].
  split; [now apply Float64Zero.div_nan, Float64Zero.mul_nan |].
  repeat split.
Qed.

Lemma nan_fuel_poisons_scenarioA :
  let out :=
    boiler (num := float)
      {| Fuel.type := "wood"; Fuel.quantity := nan; Fuel.heatContent := 8000%float |}
      waterA airA electricityA controlA None in
  is_nan out.(BoilerOutput.wasteHeat) = true /\
  is_nan out.(BoilerOutput.steam).(Steam.flowRate) = true /\
  out.(BoilerOutput.steam).(Steam.pressure)
    = (scenarioA (num := float)).(BoilerOutput.steam).(Steam.pressure) /\
  out.(BoilerOutput.steam).(Steam.temperature)
    = (scenarioA (num := float)).(BoilerOutput.steam).(Steam.temperature) /\
  out.(BoilerOutput.flueGases) = (scenarioA (num := float)).(BoilerOutput.flueGases) /\
  out.(BoilerOutput.emissions) = (scenarioA (num := float)).(BoilerOutput.emissions).
Proof.
  refine (nan_fuel_poisons_heat_and_flow
            {| Fuel.type := "wood"; Fuel.quantity := nan;
               Fuel.heatContent := 8000%float |}
            fuelA waterA airA electricityA controlA None _).
  left. reflexivity.
Defined.

(** Scenario A with the fuel feed shut off. *)
Lemma zero_fuel_zero_output_scenarioA :
  let out :=
    boiler (num := float)
      {| Fuel.type := "wood"; Fuel.quantity := 0%float;
         Fuel.heatContent := 8000%float |}
      waterA airA electricityA controlA None in
  is_zero out.(BoilerOutput.wasteHeat) = true /\
  is_zero out.(BoilerOutput.steam).(Steam.flowRate) = true /\
  out.(BoilerOutput.steam).(Steam.pressure) = 200%float /\
  out.(BoilerOutput.steam).(Steam.temperature) = (212 + 200 * 1.7)%float.
Proof.
  refine (zero_fuel_zero_output
            {| Fuel.type := "wood"; Fuel.quantity := 0%float;
               Fuel.heatContent := 8000%float |}
            waterA airA electricityA controlA None _ _ _ _);
    try reflexivity.
  left. split; reflexivity.
Defined.

Lemma zero_fuel_efficiency_card_scenarioA :
  is_nan (BoilerVisualization.efficiencyPercent
            (boiler (num := float)
               {| Fuel.type := "wood"; Fuel.quantity := 0%float;
                  Fuel.heatContent := 8000%float |}
               waterA airA electricityA controlA None)) = true.
Proof.
  refine (zero_fuel_efficiency_card_is_NaN
            {| Fuel.type := "wood"; Fuel.quantity := 0%float;
               Fuel.heatContent := 8000%float |}
            waterA airA electricityA controlA None _ _ _ _);
    try reflexivity.
  left. split; reflexivity.
Defined.

(** ** The "Efficiency" card *)



(** ** The page: output, activity log and menu *)

Section HomeFacts.
Context {num : Type} `{Number num}.
Variable numberToString : num -> string.

Notation run := (Home.run numberToString).
Notation step := (Home.step numberToString).
Notation activityMessage := (Home.activityMessage numberToString).

Lemma run_snoc (events : list (Home.Event num)) (event : Home.Event num) :
  run (events ++ [event]) = step (run events) event.
Proof. unfold Home.run. now rewrite foldl_app. Qed.

Lemma take_4_cons_take_4 (activity : string) (log : list string) :
  take 4 (activity :: take 4 log) = take 4 (activity :: log).
Proof. cbn [take]. now rewrite take_take. Qed.

Lemma run_activities (events : list (Home.Event num)) :
  (run events).(Home.activities)
  = take 4 (reverse (activityMessage <$> Home.submitted events)).
Proof.
  induction events as [| event events IH] using rev_ind; [reflexivity |].
  rewrite run_snoc. unfold Home.submitted in *. rewrite omap_app.
  destruct event as [inputs | |]; cbn [Home.step].
  - change (omap _ [Home.Submit inputs]) with [inputs].
    cbn [Home.formSubmit Home.addActivity Home.handleSubmit Home.activities].
    rewrite IH, fmap_app.
    change (activityMessage <$> [inputs]) with [activityMessage inputs].
    rewrite reverse_snoc. apply take_4_cons_take_4.
  - change (omap _ [Home.OpenMenu]) with (@nil (Home.Inputs num)).
    rewrite app_nil_r. exact IH.
  - change (omap _ [Home.CloseMenu]) with (@nil (Home.Inputs num)).
    rewrite app_nil_r. exact IH.
Qed.

(** X11.  The activity log holds the messages of the last four submissions, the
    newest first, whatever else happened in between; its length is the
    number of submissions so far, capped at four. *)
Theorem activity_log_keeps_last_four (events : list (Home.Event num)) :
  (run events).(Home.activities)
  = take 4 (reverse (activityMessage <$> Home.submitted events)) /\
  length (run events).(Home.activities) = Nat.min 4 (length (Home.submitted events)).
Proof.
  split; [apply run_activities |].
  now rewrite run_activities, length_take, length_reverse, length_fmap.
Qed.

(** X12.  What the page shows is the model run on the most recent submission, with
    the default params (the page passes none); before the first submission
    there is no output and no visualization, and once there is one it never
    goes away. *)
Theorem page_output_is_last_submission (events : list (Home.Event num)) :
  (run events).(Home.output)
  = (fun inputs : Home.Inputs num =>
       boiler inputs.(Home.fuel) inputs.(Home.water) inputs.(Home.air)
         inputs.(Home.electricity) inputs.(Home.controlSettings) None)
    <$> last (Home.submitted events) /\
  (Home.showsVisualization (run events) = true <-> Home.submitted events <> []).
Proof.
  assert (Hout : (run events).(Home.output)
    = (fun inputs : Home.Inputs num =>
         boiler inputs.(Home.fuel) inputs.(Home.water) inputs.(Home.air)
           inputs.(Home.electricity) inputs.(Home.controlSettings) None)
      <$> last (Home.submitted events)).
  { induction events as [| event events IH] using rev_ind; [reflexivity |].
    rewrite run_snoc. unfold Home.submitted in *. rewrite omap_app.
    destruct event as [inputs | |]; cbn [Home.step].
    - change (omap _ [Home.Submit inputs]) with [inputs].
      now rewrite last_snoc.
    - change (omap _ [Home.OpenMenu]) with (@nil (Home.Inputs num)).
      rewrite app_nil_r. exact IH.
    - change (omap _ [Home.CloseMenu]) with (@nil (Home.Inputs num)).
      rewrite app_nil_r. exact IH. }
  split; [exact Hout |].
  unfold Home.showsVisualization. rewrite bool_decide_eq_true, Hout.
  rewrite fmap_is_Some. apply last_is_Some.
Qed.

(** X13.  The mobile menu is open exactly when the last menu click opened it;
    submitting the form never opens or closes it. *)
Theorem menu_follows_last_click (events : list (Home.Event num)) :
  Home.showsMobileNav (run events) = default false (last (Home.menuClicks events)).
Proof.
  unfold Home.showsMobileNav.
  induction events as [| event events IH] using rev_ind; [reflexivity |].
  rewrite run_snoc. unfold Home.menuClicks in *. rewrite omap_app.
  destruct event as [inputs | |]; cbn [Home.step].
  - change (omap _ [Home.Submit inputs]) with (@nil bool).
    rewrite app_nil_r. exact IH.
  - change (omap _ [Home.OpenMenu]) with [true]. now rewrite last_snoc.
  - change (omap _ [Home.CloseMenu]) with [false]. now rewrite last_snoc.
Qed.

End HomeFacts.

(** ** Responsive styles *)

Lemma string_app_assoc (s1 s2 s3 : string) :
  (s1 +:+ s2) +:+ s3 = s1 +:+ (s2 +:+ s3).
Proof.
  induction s1 as [| c s1 IH]; [reflexivity |].
  change (String c ((s1 +:+ s2) +:+ s3) = String c (s1 +:+ s2 +:+ s3)).
  now rewrite IH.
Qed.

Lemma concat_app_cons (sep x y : string) (l1 l2 : list string) :
  String.concat sep ((x :: l1) ++ y :: l2)
  = String.concat sep (x :: l1) +:+ sep +:+ String.concat sep (y :: l2).
Proof.
  revert x. induction l1 as [| z l1 IH]; intros x; [reflexivity |].
  change (x +:+ sep +:+ String.concat sep ((z :: l1) ++ y :: l2)
          = (x +:+ sep +:+ String.concat sep (z :: l1)) +:+ sep
            +:+ String.concat sep (y :: l2)).
  rewrite IH, !string_app_assoc. reflexivity.
Qed.

Section ResponsiveFacts.
Import ResponsiveUtils.
Context {K T : Type}.
Variable breakpoints : K -> string.
Variable JSString : T -> string.

Notation createResponsiveStyles := (createResponsiveStyles breakpoints JSString).


(** X15.  The media queries come in the order of the object's entries, one line
    each: the styles of two non-empty objects put one after the other are
    the styles of each, joined by a line feed. *)
Theorem responsive_styles_app
    (property : string) (transform : option (T -> string))
    (entry entry' : K * T) (entries entries' : list (K * T)) :
  createResponsiveStyles property
    (PerBreakpoint ((entry :: entries) ++ entry' :: entries')) transform
  = createResponsiveStyles property (PerBreakpoint (entry :: entries)) transform
    +:+ newline
    +:+ createResponsiveStyles property (PerBreakpoint (entry' :: entries')) transform.
Proof.
  unfold ResponsiveUtils.createResponsiveStyles.
  rewrite map_app. cbn [map]. apply concat_app_cons.
Qed.

End ResponsiveFacts.

(** X16.  A column count [n] and the string [repeat(n, 1fr)] give the same grid
    styles, entry by entry: the grid's transform turns the number into that
    string and leaves strings alone. *)
Theorem grid_number_is_repeat {K num : Type}
    (breakpoints : K -> string) (numberToString : num -> string)
    (columns : ResponsiveUtils.ResponsiveValue K (num + string))
    (gap : option (ResponsiveUtils.ResponsiveValue K string)) :
  Grid.gridStyles breakpoints numberToString (Some columns) gap
  = Grid.gridStyles breakpoints numberToString
      (Some (ResponsiveUtils.mapValue
               (fun val => inr (Grid.columnsTransform numberToString val)) columns))
      gap.
Proof.
  assert (Hcolumns :
    ResponsiveUtils.createResponsiveStyles breakpoints (Grid.JSString numberToString)
      "grid-template-columns" columns (Some (Grid.columnsTransform numberToString))
    = ResponsiveUtils.createResponsiveStyles breakpoints (Grid.JSString numberToString)
        "grid-template-columns"
        (ResponsiveUtils.mapValue
           (fun val => inr (Grid.columnsTransform numberToString val)) columns)
        (Some (Grid.columnsTransform numberToString))).
  { destruct columns as [value | entries]; [reflexivity |].
    cbn [ResponsiveUtils.createResponsiveStyles ResponsiveUtils.mapValue].
    f_equal. rewrite map_map. apply map_ext. now intros [breakpoint val]. }
  unfold Grid.gridStyles. cbn [default from_option]. unfold Datatypes.id.
  now rewrite Hcolumns.
Qed.

(** The header padding of the page, with the table of [lib/breakpoints.ts]. *)
Example header_padding :
  ResponsiveUtils.createResponsiveStyles Breakpoints.breakpoints (fun val : string => val)
    "padding"
    (ResponsiveUtils.PerBreakpoint [(Breakpoints.sm, "1rem"); (Breakpoints.md, "1.5rem")])
    None
  = "@media (min-width: 640px) { padding: 1rem; }" +:+ newline
    +:+ "@media (min-width: 768px) { padding: 1.5rem; }".
Proof. reflexivity. Qed.
